(** * CompressCLI sample generator: [examples/create_samples.py]

    A shallow embedding of the procedural synthesis code of
    [create_sample_images] and [create_sample_video], and the properties of
    the natural-language specification that can be settled on it.

    Python integers are [Z]; Python floats are IEEE-754 binary64 values,
    embedded as Rocq's primitive [float] so that every arithmetic step of the
    source rounds exactly as it does in CPython.  The only numeric routine
    that is not part of the language is [np.sin]; it is a parameter of the
    video model. *)

From Stdlib Require Import String Ascii DecimalString ZArith List Bool Lia Floats.
From Stdlib Require Finite.
Import ListNotations.
Local Open Scope Z_scope.

(** ** Exceptions and results *)

(** The exceptions the modelled calls can raise. *)
Inductive exn : Set :=
| ImportError
| ValueError
| OverflowError
| IndexError
| OSError
| Cv2Error.

Inductive result (A : Type) : Type :=
| Ok (a : A)
| Raise (e : exn).
Arguments Ok {A} a.
Arguments Raise {A} e.

Definition bindR {A B : Type} (r : result A) (k : A -> result B) : result B :=
  match r with
  | Ok a => k a
  | Raise e => Raise e
  end.

Notation "'let*' x ':=' c 'in' k" := (bindR c (fun x => k))
  (at level 61, x pattern, c at next level, right associativity).

(** ** Python primitives *)

Module Py.

(** [range(n)] *)
Definition range (n : Z) : list Z :=
  map Z.of_nat (seq 0 (Z.to_nat n)).

(** [range(start, stop, step)] for a positive [step]; the length is
    CPython's [(stop - start + step - 1) // step], or zero. *)
Definition range3 (start stop step : Z) : list Z :=
  map (fun i => start + step * i) (range ((stop - start + step - 1) / step)).

(** [range(start, stop)] *)
Definition range2 (start stop : Z) : list Z := range3 start stop 1.

(** [float(z)] for an integer below [2^63] in magnitude (every integer of
    the program is below [2^12]). *)
Definition float_of_Z (z : Z) : float :=
  if z <? 0 then PrimFloat.opp (PrimFloat.of_uint63 (Uint63.of_Z (- z)))
  else PrimFloat.of_uint63 (Uint63.of_Z z).

(** [a / b] on two integers: true division, correctly rounded. *)
Definition truediv (a b : Z) : float :=
  PrimFloat.div (float_of_Z a) (float_of_Z b).

(** [int(f)]: truncation toward zero; Python raises [ValueError] on a NaN
    and [OverflowError] on an infinity. *)
Definition int (f : float) : result Z :=
  match Prim2SF f with
  | S754_zero _ => Ok 0
  | S754_finite s m e =>
      let v := if 0 <=? e then Z.shiftl (Zpos m) e
               else Z.shiftr (Zpos m) (- e) in
      Ok (if s then - v else v)
  | S754_infinity _ => Raise OverflowError
  | S754_nan => Raise ValueError
  end.

(** [for i in l: s = body(i, s)], stopping at the first exception. *)
Fixpoint for_each {S : Type} (l : list Z) (body : Z -> S -> result S) (s : S)
  : result S :=
  match l with
  | [] => Ok s
  | i :: l' => let* s' := body i s in for_each l' body s'
  end.

(** [str(z)] and the [{z}] field of an f-string. *)
Definition str (z : Z) : string :=
  NilZero.string_of_int (Z.to_int z).

(** Nearest integer to [num / den] ([0 <= num], [0 < den]), ties to even:
    the rounding of [float.__format__]. *)
Definition round_half_even (num den : Z) : Z :=
  let q := num / den in
  let r := num mod den in
  if 2 * r <? den then q
  else if den <? 2 * r then q + 1
  else if Z.even q then q else q + 1.

(** The [{f:.1f}] field of an f-string: the exact binary value of [f]
    rounded to one decimal place. *)
Definition format_1f (f : float) : string :=
  match Prim2SF f with
  | S754_nan => "nan"
  | S754_infinity s => if s then "-inf" else "inf"
  | S754_zero s => if s then "-0.0" else "0.0"
  | S754_finite s m e =>
      let n := if 0 <=? e then 10 * Zpos m * 2 ^ e
               else round_half_even (10 * Zpos m) (2 ^ (- e)) in
      ((if s then "-" else "") ++ str (n / 10) ++ "." ++ str (n mod 10))%string
  end.

End Py.

(** [np.pi] *)
Definition np_pi : float := 0x1.921fb54442d18p+1%float.

(** ** The drawing collaborator (PIL)

    An image is its size, its background and the drawing calls made on it,
    in order; [ImageDraw.Draw(img)] draws into [img], so a call on the draw
    object appends to the image's calls.  Colours are recorded as the source
    passes them: a name, or the integer triple of a [fill=(r, g, b)]. *)

Module PIL.

Inductive color : Set :=
| Named (name : string)
| RGB (r g b : Z).

(** What [ImageFont.load_default()] returns. *)
Inductive font : Set := default_font.

Inductive draw_op : Set :=
| rectangle (xy : Z * Z * Z * Z) (fill : color) (outline : option color) (width : Z)
| ellipse (xy : Z * Z * Z * Z) (fill : color) (outline : option color) (width : Z)
| line (p q : Z * Z) (fill : color)
| polygon (pts : list (Z * Z)) (fill : color)
| text (xy : Z * Z) (s : string) (fill : color) (fnt : option font).

Record Image : Set := mkImage {
  mode : string;
  size : Z * Z;
  background : color;
  ops : list draw_op
}.

(** [Image.new(mode, size, color=c)] *)
Definition new (m : string) (sz : Z * Z) (c : color) : Image :=
  {| mode := m; size := sz; background := c; ops := [] |}.

(** One call on the draw object of [img]. *)
Definition draw (img : Image) (op : draw_op) : Image :=
  {| mode := mode img; size := size img; background := background img;
     ops := ops img ++ [op] |}.

(** What [ImageDraw.text] does before it draws: it uses the font it is
    given, and with [font=None] the draw object loads the default font
    itself, which can raise.  [reload] is what that load does in the
    environment of the run. *)
Definition text_font (reload : result font) (fnt : option font) : result font :=
  match fnt with
  | Some f => Ok f
  | None => reload
  end.

(** [draw.text(xy, s, fill=c, font=fnt)] *)
Definition draw_text (reload : result font) (img : Image) (xy : Z * Z)
  (s : string) (c : color) (fnt : option font) : result Image :=
  let* _ := text_font reload fnt in
  Ok (draw img (text xy s c fnt)).

Definition fill_of (op : draw_op) : color :=
  match op with
  | rectangle _ c _ _ | ellipse _ c _ _ | line _ _ c | polygon _ c
  | text _ _ c _ => c
  end.

(** The library turns a fill into the ink it writes: each channel of an
    integer triple is clipped to [0, 255]. *)
Definition clip8 (v : Z) : Z := Z.max 0 (Z.min 255 v).

Definition ink (c : color) : color :=
  match c with
  | Named name => Named name
  | RGB r g b => RGB (clip8 r) (clip8 g) (clip8 b)
  end.

(** Whether a call paints pixel [(x, y)], for the calls whose raster is
    plain: a filled rectangle without outline covers its box, both corners
    included, and a one-pixel vertical or horizontal line covers the
    segment, both ends included.  [None]: left to the library's rasteriser
    (outlines, ellipses, polygons, glyphs, slanted lines). *)
Definition covers (op : draw_op) (x y : Z) : option bool :=
  match op with
  | rectangle (x0, y0, x1, y1) _ None _ =>
      Some ((x0 <=? x) && (x <=? x1) && (y0 <=? y) && (y <=? y1))
  | line (x0, y0) (x1, y1) _ =>
      if x0 =? x1 then
        Some ((x =? x0) && (Z.min y0 y1 <=? y) && (y <=? Z.max y0 y1))
      else if y0 =? y1 then
        Some ((y =? y0) && (Z.min x0 x1 <=? x) && (x <=? Z.max x0 x1))
      else None
  | _ => None
  end.

(** The colour pixel [(x, y)] holds after the calls [l] on a pixel that
    held [c]: the last call that covers it wins, and what it writes is the
    ink of its fill. *)
Fixpoint paint (l : list draw_op) (c : color) (x y : Z) : option color :=
  match l with
  | [] => Some c
  | op :: l' =>
      match covers op x y with
      | Some true => paint l' (ink (fill_of op)) x y
      | Some false => paint l' c x y
      | None => None
      end
  end.

End PIL.

(** ** The array and video collaborators (numpy, cv2) *)

Module Np.

(** One pixel of an array of shape [(height, width, 3)]. *)
Definition pixel : Set := (Z * Z * Z)%type.

Definition ndarray : Set := list (list pixel).

(** [np.zeros((height, width, 3), dtype=np.uint8)]; numpy refuses a
    negative dimension. *)
Definition zeros (height width : Z) : result ndarray :=
  if (height <? 0) || (width <? 0) then Raise ValueError
  else Ok (repeat (repeat (0, 0, 0) (Z.to_nat width)) (Z.to_nat height)).

(** The cast of an integer to [uint8], as numpy 1 does it (numpy 2 raises
    [OverflowError] on an integer outside [0, 255]; the loops store none
    when the sine stays in [-1, 1]). *)
Definition uint8 (v : Z) : Z := v mod 256.

Fixpoint set_nth {A : Type} (l : list A) (n : nat) (a : A) : list A :=
  match l, n with
  | [], _ => []
  | _ :: l', O => a :: l'
  | b :: l', S n' => b :: set_nth l' n' a
  end.

(** [frame[y, x] = [c0, c1, c2]] for non-negative indices (the loops
    produce no others). *)
Definition setitem (frame : ndarray) (y x : Z) (px : pixel) : result ndarray :=
  match nth_error frame (Z.to_nat y) with
  | Some row =>
      if (0 <=? y) && (0 <=? x) && (x <? Z.of_nat (length row)) then
        let '(c0, c1, c2) := px in
        Ok (set_nth frame (Z.to_nat y)
              (set_nth row (Z.to_nat x) (uint8 c0, uint8 c1, uint8 c2)))
      else Raise IndexError
  | None => Raise IndexError
  end.

(** [frame[y, x]] *)
Definition getitem (frame : ndarray) (y x : Z) : option pixel :=
  match nth_error frame (Z.to_nat y) with
  | Some row => nth_error row (Z.to_nat x)
  | None => None
  end.

End Np.

Module Cv2.

(** One [cv2.putText(frame, text, org, fontFace, fontScale, color,
    thickness)] call; the face is always [FONT_HERSHEY_SIMPLEX]. *)
Record put_text : Set := mkPutText {
  txt : string;
  org : Z * Z;
  fontScale : Z;
  color : Z * Z * Z;
  thickness : Z
}.

(** A frame: the array as the field loops leave it, and the labels stamped
    over it afterwards, in order (their raster is the library's). *)
Record Frame : Set := mkFrame {
  pixels : Np.ndarray;
  labels : list put_text
}.

(** An array with no row or no column. *)
Definition is_empty (a : Np.ndarray) : bool :=
  match a with
  | [] => true
  | [] :: _ => true
  | _ => false
  end.

(** [cv2.putText] refuses an empty image with a [cv2.error]. *)
Definition putText (f : Frame) (t : put_text) : result Frame :=
  if is_empty (pixels f) then Raise Cv2Error
  else Ok {| pixels := pixels f; labels := labels f ++ [t] |}.

(** A [cv2.VideoWriter] and the frames handed to it, in order.  The
    library opens the file when the writer is made and writes nothing if
    it cannot; here the file appears when the writer is released. *)
Record VideoWriter : Set := mkVideoWriter {
  filename : string;
  fourcc : string;
  fps : Z;
  frameSize : Z * Z;
  written : list Frame
}.

Definition write (out : VideoWriter) (f : Frame) : VideoWriter :=
  {| filename := filename out; fourcc := fourcc out; fps := fps out;
     frameSize := frameSize out; written := written out ++ [f] |}.

End Cv2.

(** ** The world the script acts on *)

Inductive artifact : Set :=
| ImageFile (img : PIL.Image) (quality : option Z)
| VideoFile (out : Cv2.VideoWriter).

(** Directories made, files written (the newest first, so that a later file
    of the same name shadows an earlier one) and lines printed. *)
Record world : Set := mkWorld {
  dirs : list string;
  files : list (string * artifact);
  stdout : list string
}.

(** A statement: it ends normally or raises, and changes the world either
    way. *)
Definition M (A : Type) : Type := world -> result A * world.

Definition ret {A : Type} (a : A) : M A := fun w => (Ok a, w).

Definition bind {A B : Type} (c : M A) (k : A -> M B) : M B :=
  fun w =>
    match c w with
    | (Ok a, w') => k a w'
    | (Raise e, w') => (Raise e, w')
    end.

Notation "x <- c ;; k" := (bind c (fun x => k))
  (at level 62, c at next level, right associativity).
Notation "c ;; k" := (bind c (fun _ => k))
  (at level 62, right associativity).

(** A computation that touches nothing but its locals. *)
Definition lift {A : Type} (r : result A) : M A := fun w => (r, w).

(** [try: c  except E: handler], for the exceptions [E] that [catches]
    accepts. *)
Definition try_except {A : Type} (c : M A) (catches : exn -> bool)
  (handler : M A) : M A :=
  fun w =>
    match c w with
    | (Ok a, w') => (Ok a, w')
    | (Raise e, w') => if catches e then handler w' else (Raise e, w')
    end.

Definition print (s : string) : M unit :=
  fun w => (Ok tt, {| dirs := dirs w; files := files w;
                      stdout := stdout w ++ [s] |}).

(** [os.makedirs(d, exist_ok=True)], as far as the directory named goes:
    the parents it also makes and the cases in which the system refuses are
    not recorded. *)
Definition makedirs (d : string) : M unit :=
  fun w => (Ok tt, {| dirs := if existsb (String.eqb d) (dirs w) then dirs w
                              else d :: dirs w;
                      files := files w; stdout := stdout w |}).

Definition write_file (path : string) (a : artifact) : M unit :=
  fun w => (Ok tt, {| dirs := dirs w; files := (path, a) :: files w;
                      stdout := stdout w |}).

(** [img.save(path)] and [img.save(path, quality=q)] *)
Definition save (img : PIL.Image) (path : string) (quality : option Z) : M unit :=
  write_file path (ImageFile img quality).

(** [out.release()]: the container is complete on disk. *)
Definition release (out : Cv2.VideoWriter) : M unit :=
  write_file (Cv2.filename out) (VideoFile out).

(** The file a path names, if any. *)
Fixpoint lookup (path : string) (fs : list (string * artifact)) : option artifact :=
  match fs with
  | [] => None
  | (p, a) :: fs' => if String.eqb path p then Some a else lookup path fs'
  end.

(** ** [create_sample_images] *)

Import PIL.
Local Open Scope string_scope.

(** Lines 21-25: [try: font = ImageFont.load_default()  except: font = None].
    [load_default] is what [ImageFont.load_default()] does in the environment
    of the run: it returns the font or raises. *)
Definition try_load_default (load_default : result font) : option font :=
  match load_default with
  | Ok f => Some f
  | Raise _ => None
  end.

(** The function, in an environment where the call of line 23 does
    [load_default] and every later load of the default font, made by the
    drawing library for a text without font, does [reload]. *)
Definition create_sample_images_env (reload load_default : result font) : M unit :=
  let samples_dir := "examples/samples" in
  makedirs samples_dir ;;

  let img_4k := new "RGB" (3840, 2160) (Named "skyblue") in
  let font := try_load_default load_default in
  let img_4k := draw img_4k
    (rectangle (100, 100, 1000, 600) (Named "red") (Some (Named "black")) 5) in
  let img_4k := draw img_4k
    (ellipse (2000, 500, 3500, 1500) (Named "green") (Some (Named "blue")) 10) in
  img_4k <- lift (draw_text reload img_4k (200, 200) "Sample 4K Image"
    (Named "white") font) ;;
  img_4k <- lift (draw_text reload img_4k (200, 300) "For CompressCLI Testing"
    (Named "white") font) ;;
  save img_4k (samples_dir ++ "/sample_4k.png") None ;;
  print "Created sample_4k.png (3840x2160)" ;;

  let img_1080p := new "RGB" (1920, 1080) (Named "lightgreen") in
  img_1080p <- lift (Py.for_each (Py.range 1920) (fun i img =>
    let* color_val :=
      Py.int (PrimFloat.mul (Py.float_of_Z 255) (Py.truediv i 1920)) in
    Ok (draw img (line (i, 0) (i, 1080) (RGB color_val 100 (255 - color_val)))))
    img_1080p) ;;
  img_1080p <- lift (draw_text reload img_1080p (100, 100) "Sample 1080p Image"
    (Named "white") font) ;;
  img_1080p <- lift (draw_text reload img_1080p (100, 150) "Gradient Background"
    (Named "white") font) ;;
  save img_1080p (samples_dir ++ "/sample_1080p.jpg") (Some 95) ;;
  print "Created sample_1080p.jpg (1920x1080)" ;;

  let img_720p := new "RGB" (1280, 720) (Named "orange") in
  img_720p <- lift (Py.for_each (Py.range3 0 1280 50) (fun x img =>
    Py.for_each (Py.range3 0 720 50) (fun y img =>
      let color := RGB (x mod 255) (y mod 255) ((x + y) mod 255) in
      Ok (draw img (rectangle (x, y, x + 40, y + 40) color None 1)))
      img)
    img_720p) ;;
  img_720p <- lift (draw_text reload img_720p (50, 50) "Sample 720p Image"
    (Named "white") font) ;;
  img_720p <- lift (draw_text reload img_720p (50, 100) "Pattern Background"
    (Named "white") font) ;;
  save img_720p (samples_dir ++ "/sample_720p.webp") (Some 90) ;;
  print "Created sample_720p.webp (1280x720)" ;;

  let img_photo := new "RGB" (2048, 1536) (Named "lightblue") in
  img_photo <- lift (Py.for_each (Py.range 500) (fun y img =>
    let* color_val :=
      Py.int (PrimFloat.add (Py.float_of_Z 135)
                (PrimFloat.mul (Py.truediv y 500) (Py.float_of_Z 120))) in
    Ok (draw img (line (0, y) (2048, y) (RGB color_val (color_val + 20) 255))))
    img_photo) ;;
  img_photo <- lift (Py.for_each (Py.range2 500 1536) (fun y img =>
    let* color_val :=
      Py.int (PrimFloat.add (Py.float_of_Z 34)
                (PrimFloat.mul (Py.truediv (y - 500) 1036) (Py.float_of_Z 100))) in
    Ok (draw img (line (0, y) (2048, y) (RGB color_val (color_val + 50) color_val))))
    img_photo) ;;
  let points := [(0, 500); (300, 200); (600, 350); (900, 150); (1200, 300);
                 (1500, 100); (1800, 250); (2048, 180); (2048, 500)] in
  let img_photo := draw img_photo (polygon points (Named "gray")) in
  img_photo <- lift (draw_text reload img_photo (100, 1400) "Sample Photo-like Image"
    (Named "white") font) ;;
  img_photo <- lift (draw_text reload img_photo (100, 1450) "Landscape Simulation"
    (Named "white") font) ;;
  save img_photo (samples_dir ++ "/sample_photo.jpg") (Some 85) ;;
  print "Created sample_photo.jpg (2048x1536)".

(** The function where the drawing library can load its default font by
    itself, so that every text call succeeds whatever line 23 did. *)
Definition create_sample_images (load_default : result font) : M unit :=
  create_sample_images_env (Ok default_font) load_default.

(** ** [create_sample_video] *)

Section Video.

(** [np.sin] on a double. *)
Variable np_sin : float -> float.

Local Open Scope float_scope.

(** Lines 116-118: the three channels of pixel [(x, y)] of frame
    [frame_num], as [(r, g, b)]. *)
Definition video_field (frame_num x y : Z) : result (Z * Z * Z) :=
  let* r := Py.int (128 + 127 * np_sin
               (2 * np_pi * Py.float_of_Z frame_num / 60 + Py.truediv x 100)) in
  let* g := Py.int (128 + 127 * np_sin
               (2 * np_pi * Py.float_of_Z frame_num / 60 + Py.truediv y 100)) in
  let* b := Py.int (128 + 127 * np_sin
               (2 * np_pi * Py.float_of_Z frame_num / 60 + Py.truediv (x + y) 200)) in
  Ok (r, g, b).

(** Lines 111-119: the array of frame [frame_num]; OpenCV stores a pixel
    as [b, g, r]. *)
Definition fill_frame (width height frame_num : Z) : result Np.ndarray :=
  let* frame := Np.zeros height width in
  Py.for_each (Py.range height) (fun y frame =>
    Py.for_each (Py.range width) (fun x frame =>
      let* (r, g, b) := video_field frame_num x y in
      Np.setitem frame y x (b, g, r))
      frame)
    frame.

Local Open Scope string_scope.
Local Open Scope Z_scope.

(** Lines 110-127: the frame of index [frame_num], with its three labels. *)
Definition synth_frame (width height fps total_frames frame_num : Z)
  : result Cv2.Frame :=
  let* frame := fill_frame width height frame_num in
  let frame := Cv2.mkFrame frame [] in
  let* frame := Cv2.putText frame
    (Cv2.mkPutText ("Frame " ++ Py.str (frame_num + 1) ++ "/" ++ Py.str total_frames)
       (50, 50) 1 (255, 255, 255) 2) in
  let* frame := Cv2.putText frame
    (Cv2.mkPutText ("Time: " ++ Py.format_1f (Py.truediv frame_num fps) ++ "s")
       (50, 100) 1 (255, 255, 255) 2) in
  let* frame := Cv2.putText frame
    (Cv2.mkPutText "Sample Video for CompressCLI"
       (50, height - 50) 1 (255, 255, 255) 2) in
  Ok frame.

Definition is_ImportError (e : exn) : bool :=
  match e with
  | ImportError => true
  | _ => false
  end.

(** [import_cv2] is what [import cv2] does in the environment of the run:
    it succeeds or raises [ImportError]. *)
Definition create_sample_video (import_cv2 : result unit) : M unit :=
  try_except
    (lift import_cv2 ;;
     let samples_dir := "examples/samples" in
     let '(width, height) := (1280, 720) in
     let fps := 30 in
     let duration := 10 in
     let total_frames := fps * duration in
     let fourcc := "mp4v" in
     let out := Cv2.mkVideoWriter (samples_dir ++ "/sample_video.mp4")
                  fourcc fps (width, height) [] in
     out <- lift (Py.for_each (Py.range total_frames) (fun frame_num out =>
       let* frame := synth_frame width height fps total_frames frame_num in
       Ok (Cv2.write out frame))
       out) ;;
     release out ;;
     print ("Created sample_video.mp4 (" ++ Py.str width ++ "x" ++ Py.str height
            ++ ", " ++ Py.str duration ++ "s)"))
    is_ImportError
    (print "OpenCV not available, skipping video creation" ;;
     print "To create sample video, install: pip install opencv-python numpy").

(** The script run as a program (lines 138-143). *)
Definition main (load_default : result font) (import_cv2 : result unit) : M unit :=
  print "Creating sample files for CompressCLI testing..." ;;
  create_sample_images load_default ;;
  create_sample_video import_cv2 ;;
  print (String "010" "Sample files created in examples/samples/") ;;
  print "You can now test CompressCLI with these files!".

End Video.


Local Close Scope string_scope.

(** * What the samples should be

    The definitions of this part are not translations of the loops of the
    source: they are closed forms, in exact integer arithmetic where the
    source computes in double precision, of what the specification says the
    loops produce.  The properties below compare them with the model of the
    code. *)

Definition path_4k : string := "examples/samples/sample_4k.png".
Definition path_1080p : string := "examples/samples/sample_1080p.jpg".
Definition path_720p : string := "examples/samples/sample_720p.webp".
Definition path_photo : string := "examples/samples/sample_photo.jpg".
Definition path_video : string := "examples/samples/sample_video.mp4".

Definition saved_image (path : string) (w : world) : option Image :=
  match lookup path (files w) with
  | Some (ImageFile img _) => Some img
  | _ => None
  end.

Definition is_text (op : draw_op) : bool :=
  match op with
  | text _ _ _ _ => true
  | _ => false
  end.

(** The text stamps of an image, in order. *)
Definition texts_of (img : Image) : list draw_op := filter is_text (ops img).

Definition saved_texts (path : string) (w : world) : option (list draw_op) :=
  option_map texts_of (saved_image path w).

(** The two stamps of a sample. *)
Definition stamps (x y1 y2 : Z) (s1 s2 : string) (fnt : option font)
  : list draw_op :=
  [text (x, y1) s1 (Named "white") fnt; text (x, y2) s2 (Named "white") fnt].

(** *** The 4K sample *)

Definition sample_4k (fnt : option font) : Image :=
  mkImage "RGB" (3840, 2160) (Named "skyblue")
    ([rectangle (100, 100, 1000, 600) (Named "red") (Some (Named "black")) 5;
      ellipse (2000, 500, 3500, 1500) (Named "green") (Some (Named "blue")) 10]
     ++ stamps 200 200 300 "Sample 4K Image" "For CompressCLI Testing" fnt).

(** *** The 1080p gradient *)

(** The colour of column [x]: the start colour (0, 100, 255) moved toward the
    end colour (255, 100, 0) by [x/1920], the quotient taken exactly. *)
Definition gradient_color (x : Z) : color :=
  RGB (255 * x / 1920) 100 (255 - 255 * x / 1920).

Definition gradient_lines : list draw_op :=
  map (fun x => line (x, 0) (x, 1080) (gradient_color x)) (Py.range 1920).

Definition sample_1080p (fnt : option font) : Image :=
  mkImage "RGB" (1920, 1080) (Named "lightgreen")
    (gradient_lines
     ++ stamps 100 100 150 "Sample 1080p Image" "Gradient Background" fnt).

(** *** The 720p tile pattern *)

Definition tile_color (x y : Z) : color :=
  RGB (x mod 255) (y mod 255) ((x + y) mod 255).

(** The tile whose top-left corner is [(x, y)]. *)
Definition tile (p : Z * Z) : draw_op :=
  let '(x, y) := p in
  rectangle (x, y, x + 40, y + 40) (tile_color x y) None 1.

(** The corners of the grid, column by column. *)
Definition grid : list (Z * Z) :=
  list_prod (Py.range3 0 1280 50) (Py.range3 0 720 50).

Definition sample_720p (fnt : option font) : Image :=
  mkImage "RGB" (1280, 720) (Named "orange")
    (map tile grid
     ++ stamps 50 50 100 "Sample 720p Image" "Pattern Background" fnt).

(** *** The photo-like sample *)

(** Row [y] of the sky band and of the ground band. *)
Definition sky_line (y : Z) : draw_op :=
  line (0, y) (2048, y)
    (RGB (135 + 120 * y / 500) (135 + 120 * y / 500 + 20) 255).

Definition ground_line (y : Z) : draw_op :=
  line (0, y) (2048, y)
    (RGB (34 + 100 * (y - 500) / 1036) (34 + 100 * (y - 500) / 1036 + 50)
       (34 + 100 * (y - 500) / 1036)).

Definition mountains : draw_op :=
  polygon [(0, 500); (300, 200); (600, 350); (900, 150); (1200, 300);
           (1500, 100); (1800, 250); (2048, 180); (2048, 500)] (Named "gray").

Definition sample_photo (fnt : option font) : Image :=
  mkImage "RGB" (2048, 1536) (Named "lightblue")
    (map sky_line (Py.range 500) ++ map ground_line (Py.range2 500 1536)
     ++ [mountains]
     ++ stamps 100 1400 1450 "Sample Photo-like Image" "Landscape Simulation" fnt).

(** *** Channel ranges *)

Definition channel_in_range (v : Z) : bool := (0 <=? v) && (v <=? 255).

Definition fill_in_range (c : color) : bool :=
  match c with
  | Named _ => true
  | RGB r g b => channel_in_range r && channel_in_range g && channel_in_range b
  end.

(** The calls of an image whose fill has a channel outside [0, 255]. *)
Definition out_of_range (img : Image) : list draw_op :=
  filter (fun op => negb (fill_in_range (fill_of op))) (ops img).

(** *** The video *)

(** [num / den] to one decimal place, the quotient taken exactly. *)
Definition one_decimal (num den : Z) : string :=
  let t := Py.round_half_even (10 * num) den in
  (Py.str (t / 10) ++ "." ++ Py.str (t mod 10))%string.

Section VideoSpec.

Variable np_sin : float -> float.

(** The specification's channel:
    128 + 127 sin(2 pi frame_index / 60 + phase), as an integer. *)
Definition sinusoid (frame_index : Z) (phase : float) : result Z :=
  Py.int (128 + 127 * np_sin
            (2 * np_pi * Py.float_of_Z frame_index / 60 + phase))%float.

(** A sine value whose channel is an integer of [0, 255]; every value in
    [-1, 1] is one. *)
Definition channel_ok (s : float) : bool :=
  match Py.int (128 + 127 * s)%float with
  | Ok v => channel_in_range v
  | Raise _ => false
  end.

Definition value (r : result Z) : Z :=
  match r with
  | Ok v => v
  | Raise _ => 0
  end.

Definition red (frame_index x : Z) : Z :=
  value (sinusoid frame_index (Py.truediv x 100)).
Definition green (frame_index y : Z) : Z :=
  value (sinusoid frame_index (Py.truediv y 100)).
Definition blue (frame_index x y : Z) : Z :=
  value (sinusoid frame_index (Py.truediv (x + y) 200)).

(** The pixel of row [y], column [x], in storage order. *)
Definition field_pixel (frame_index y x : Z) : Np.pixel :=
  (blue frame_index x y, green frame_index y, red frame_index x).

Definition field_array (width height frame_index : Z) : Np.ndarray :=
  map (fun y => map (field_pixel frame_index y) (Py.range width))
    (Py.range height).

(** The body of the inner loop (lines 116-119), named. *)
Definition fill_pixel (k y x : Z) (frame : Np.ndarray) : result Np.ndarray :=
  let* (r, g, b) := video_field np_sin k x y in
  Np.setitem frame y x (b, g, r).

Definition label (s : string) (x y : Z) : Cv2.put_text :=
  Cv2.mkPutText s (x, y) 1 (255, 255, 255) 2.

Definition frame_labels (height fps total_frames frame_index : Z)
  : list Cv2.put_text :=
  [label ("Frame " ++ Py.str (frame_index + 1) ++ "/" ++ Py.str total_frames)
     50 50;
   label ("Time: " ++ Py.format_1f (Py.truediv frame_index fps) ++ "s") 50 100;
   label "Sample Video for CompressCLI" 50 (height - 50)]%string.

Definition frame_of (width height fps total_frames frame_index : Z)
  : Cv2.Frame :=
  Cv2.mkFrame (field_array width height frame_index)
    (frame_labels height fps total_frames frame_index).

Definition sample_video : Cv2.VideoWriter :=
  Cv2.mkVideoWriter path_video "mp4v" 30 (1280, 720)
    (map (frame_of 1280 720 30 300) (Py.range 300)).

End VideoSpec.

(** ** More closed forms *)

(** The two bands of the photo-like sample, as the loops draw them. *)
Definition photo_bands : list draw_op :=
  map sky_line (Py.range 500) ++ map ground_line (Py.range2 500 1536).

(** The fill of row [y] of the bands. *)
Definition band_color (y : Z) : color :=
  if y <? 500 then
    RGB (135 + 120 * y / 500) (135 + 120 * y / 500 + 20) 255
  else
    RGB (34 + 100 * (y - 500) / 1036) (34 + 100 * (y - 500) / 1036 + 50)
      (34 + 100 * (y - 500) / 1036).

(** What the library stores for row [y] of the bands: the fill of the row
    with each channel clipped to [0, 255]; only the green of the sky is ever
    clipped. *)
Definition stored_band_color (y : Z) : color :=
  if y <? 500 then
    RGB (135 + 120 * y / 500) (Z.min (135 + 120 * y / 500 + 20) 255) 255
  else
    RGB (34 + 100 * (y - 500) / 1036) (34 + 100 * (y - 500) / 1036 + 50)
      (34 + 100 * (y - 500) / 1036).

(** The colour the tiling pass leaves at pixel [(px, py)] of the 720p
    canvas: the colour of the tile around it, or the background in the gaps
    between the tiles. *)
Definition tiled_color (px py : Z) : color :=
  if (px mod 50 <=? 40) && (py mod 50 <=? 40) then
    tile_color (50 * (px / 50)) (50 * (py / 50))
  else Named "orange".

(** Whether the box of a rectangle lies inside a canvas of the given
    size. *)
Definition box_inside (size : Z * Z) (op : draw_op) : bool :=
  match op with
  | rectangle (x0, y0, x1, y1) _ _ _ =>
      (0 <=? x0) && (x1 <? fst size) && (0 <=? y0) && (y1 <? snd size)
  | _ => true
  end.

(** A call of the gradient: green is 100, red and blue add up to 255 and
    red stays below 255; the other calls of the image are its texts. *)
Definition complementary (op : draw_op) : bool :=
  match fill_of op with
  | RGB r g b => (g =? 100) && (r + b =? 255) && (0 <=? r) && (r <=? 254)
  | Named _ => is_text op
  end.

(** The calls of an image before its last two calls have no text among them
    and its last two calls are texts. *)
Definition stamps_last (img : Image) : bool :=
  let n := (List.length (ops img) - 2)%nat in
  forallb (fun op => negb (is_text op)) (firstn n (ops img))
  && forallb is_text (skipn n (ops img))
  && (List.length (skipn n (ops img)) =? 2)%nat.

(** The text of the first label of a frame. *)
Definition counter_text (f : Cv2.Frame) : string :=
  match Cv2.labels f with
  | t :: _ => Cv2.txt t
  | [] => EmptyString
  end.





(** The lines the script prints, in order. *)
Definition line_start : string :=
  "Creating sample files for CompressCLI testing...".
Definition lines_images : list string :=
  ["Created sample_4k.png (3840x2160)"; "Created sample_1080p.jpg (1920x1080)";
   "Created sample_720p.webp (1280x720)"; "Created sample_photo.jpg (2048x1536)"
  ]%string.
Definition line_video : string := "Created sample_video.mp4 (1280x720, 10s)".
Definition lines_skip : list string :=
  ["OpenCV not available, skipping video creation";
   "To create sample video, install: pip install opencv-python numpy"]%string.
Definition lines_end : list string :=
  [String "010" "Sample files created in examples/samples/";
   "You can now test CompressCLI with these files!"]%string.

(** The four image files, the newest first. *)
Definition image_files (fnt : option font) : list (string * artifact) :=
  [(path_photo, ImageFile (sample_photo fnt) (Some 85));
   (path_720p, ImageFile (sample_720p fnt) (Some 90));
   (path_1080p, ImageFile (sample_1080p fnt) (Some 95));
   (path_4k, ImageFile (sample_4k fnt) None)].

(** * Properties *)

Example range_5 : Py.range 5 = [0; 1; 2; 3; 4].
Proof. reflexivity. Qed.

Example range3_tail : Py.range3 0 120 50 = [0; 50; 100].
Proof. reflexivity. Qed.

Example int_trunc : Py.int (-2.75)%float = Ok (-2).
Proof. reflexivity. Qed.

Example str_300 : Py.str 300 = "300"%string.
Proof. reflexivity. Qed.

Example format_1f_tenth : Py.format_1f (Py.truediv 299 30) = "10.0"%string.
Proof. vm_compute. reflexivity. Qed.

Example format_1f_tie : Py.format_1f 0.25%float = "0.2"%string.
Proof. vm_compute. reflexivity. Qed.

Example one_decimal_44 : one_decimal 44 30 = "1.5"%string.
Proof. reflexivity. Qed.

Example sky_row_499 : sky_line 499 = line (0, 499) (2048, 499) (RGB 254 274 255).
Proof. reflexivity. Qed.

Example tile_1250_700 :
  tile (1250, 700) = rectangle (1250, 700, 1290, 740) (RGB 230 190 165) None 1.
Proof. reflexivity. Qed.

Example zeros_negative : Np.zeros (-1) 1280 = Raise ValueError.
Proof. reflexivity. Qed.

Example channel_ok_extremes :
  channel_ok 1%float = true /\ channel_ok (-1)%float = true /\
  channel_ok 0%float = true /\ channel_ok 2%float = false.
Proof. repeat split; vm_compute; reflexivity. Qed.

(** ** Ranges and loops *)

Lemma In_range (n i : Z) : In i (Py.range n) <-> 0 <= i < n.
Proof.
  unfold Py.range. rewrite in_map_iff. split.
  - intros [k [<- Hk]]. apply in_seq in Hk. lia.
  - intros Hi. exists (Z.to_nat i). split; [lia|]. apply in_seq. lia.
Qed.

Lemma NoDup_range (n : Z) : NoDup (Py.range n).
Proof.
  unfold Py.range. apply Finite.Injective_map_NoDup.
  - intros a b. apply Nat2Z.inj.
  - apply seq_NoDup.
Qed.

Lemma In_range3 (stop step x : Z) :
  0 < step ->
  In x (Py.range3 0 stop step) <->
  exists i, 0 <= i < (stop + step - 1) / step /\ x = step * i.
Proof.
  intros Hs. unfold Py.range3. rewrite in_map_iff.
  replace (stop - 0 + step - 1) with (stop + step - 1) by lia.
  split.
  - intros [i [<- Hi]]. apply In_range in Hi. exists i. split; [exact Hi | lia].
  - intros [i [Hi ->]]. exists i. split; [lia | apply In_range; exact Hi].
Qed.

Lemma nth_error_range (n k : Z) :
  0 <= k < n -> nth_error (Py.range n) (Z.to_nat k) = Some k.
Proof.
  intros Hk. unfold Py.range.
  rewrite nth_error_map, nth_error_seq.
  destruct (Nat.ltb_spec (Z.to_nat k) (Z.to_nat n)) as [_ | Hge]; [| lia].
  simpl. f_equal. lia.
Qed.

Lemma range_head (n : Z) : 0 < n -> exists l, Py.range n = 0 :: l.
Proof.
  intros Hn. unfold Py.range.
  destruct (Z.to_nat n) as [| m] eqn:Hm; [lia|].
  eexists. reflexivity.
Qed.

(** A loop whose body cannot raise is a fold. *)
Lemma for_each_fold {S : Type} (body : Z -> S -> result S) (step : S -> Z -> S) :
  forall (l : list Z) (s : S),
    (forall i s', In i l -> body i s' = Ok (step s' i)) ->
    Py.for_each l body s = Ok (fold_left step l s).
Proof.
  induction l as [| i l IH]; intros s Hbody; simpl.
  - reflexivity.
  - rewrite Hbody by (left; reflexivity). simpl.
    apply IH. intros j s' Hj. apply Hbody. right. exact Hj.
Qed.

(** ** Painting *)

Lemma clip8_in_range (v : Z) : 0 <= v <= 255 -> clip8 v = v.
Proof. unfold clip8. lia. Qed.

Lemma clip8_range (v : Z) : 0 <= clip8 v <= 255.
Proof. unfold clip8. lia. Qed.

(** The ink of a fill whose channels are in [0, 255] is the fill. *)
Lemma ink_in_range (c : color) : fill_in_range c = true -> ink c = c.
Proof.
  destruct c as [name | r g b]; [reflexivity|].
  unfold fill_in_range, channel_in_range. intros H.
  repeat (apply andb_prop in H; destruct H as [H ?]).
  repeat match goal with H : (_ <=? _) = true |- _ => apply Z.leb_le in H end.
  simpl. rewrite !clip8_in_range by lia. reflexivity.
Qed.

(** Every ink has its channels in [0, 255]. *)
Lemma ink_range (c : color) : fill_in_range (ink c) = true.
Proof.
  destruct c as [name | r g b]; [reflexivity|].
  unfold ink, fill_in_range, channel_in_range.
  pose proof (clip8_range r). pose proof (clip8_range g).
  pose proof (clip8_range b).
  repeat (apply andb_true_intro; split); apply Z.leb_le; lia.
Qed.

Section Paint.

Variables x y : Z.

(** Calls with a plain raster leave a definite colour: the one before, or
    the common ink of the calls that cover the pixel. *)
Lemma paint_keeps_or_fills (col : color) :
  forall (l : list draw_op) (c : color),
    (forall o, In o l -> exists b, covers o x y = Some b) ->
    (forall o, In o l -> covers o x y = Some true -> ink (fill_of o) = col) ->
    paint l c x y = Some c \/ paint l c x y = Some col.
Proof.
  induction l as [| op l IH]; intros c Hdef Hfill; simpl.
  - left. reflexivity.
  - destruct (Hdef op (or_introl eq_refl)) as [b Hb]. rewrite Hb.
    assert (Hdef' : forall o, In o l -> exists b, covers o x y = Some b)
      by (intros o Ho; apply Hdef; right; exact Ho).
    assert (Hfill' : forall o, In o l -> covers o x y = Some true -> ink (fill_of o) = col)
      by (intros o Ho; apply Hfill; right; exact Ho).
    destruct b.
    + rewrite (Hfill op (or_introl eq_refl) Hb).
      right. destruct (IH col Hdef' Hfill') as [H | H]; exact H.
    + apply IH; assumption.
Qed.

(** If some call covers the pixel and all the calls that cover it have the
    same ink, the pixel ends with that ink. *)
Lemma paint_common_fill (col : color) :
  forall (l : list draw_op) (c : color),
    (forall o, In o l -> exists b, covers o x y = Some b) ->
    (forall o, In o l -> covers o x y = Some true -> ink (fill_of o) = col) ->
    (exists o, In o l /\ covers o x y = Some true) ->
    paint l c x y = Some col.
Proof.
  induction l as [| op l IH]; intros c Hdef Hfill [o [Ho Hc]]; simpl.
  - destruct Ho.
  - assert (Hdef' : forall o, In o l -> exists b, covers o x y = Some b)
      by (intros o' Ho'; apply Hdef; right; exact Ho').
    assert (Hfill' : forall o, In o l -> covers o x y = Some true -> ink (fill_of o) = col)
      by (intros o' Ho'; apply Hfill; right; exact Ho').
    destruct (Hdef op (or_introl eq_refl)) as [b Hb]. rewrite Hb.
    destruct b.
    + rewrite (Hfill op (or_introl eq_refl) Hb).
      destruct (paint_keeps_or_fills col l col Hdef' Hfill') as [H | H]; exact H.
    + apply IH; try assumption.
      destruct Ho as [-> | Ho].
      * rewrite Hb in Hc. discriminate.
      * exists o. split; assumption.
Qed.

End Paint.

(** Whatever the calls, a pixel that held a colour of [0, 255] holds one
    afterwards: the library writes inks only. *)
Lemma paint_in_range (x y : Z) :
  forall (l : list draw_op) (c col : color),
    fill_in_range c = true -> paint l c x y = Some col ->
    fill_in_range col = true.
Proof.
  induction l as [| op l IH]; intros c col Hc Hp; simpl in Hp.
  - injection Hp as <-. exact Hc.
  - destruct (covers op x y) as [[|]|]; [| | discriminate Hp].
    + apply (IH _ _ (ink_range (fill_of op)) Hp).
    + apply (IH _ _ Hc Hp).
Qed.

(** ** The run of [create_sample_images]

    Whatever the font loader does and whatever the world holds, the function
    ends normally, having made the directory, written the four images and
    printed four lines.  The loops of the source, which compute in double
    precision, draw exactly the lines and tiles of the closed forms above. *)

Lemma create_sample_images_run (load_default : result font) (w : world) :
  create_sample_images load_default w
  = (Ok tt,
     {| dirs := dirs (snd (makedirs "examples/samples" w));
        files :=
          [(path_photo,
            ImageFile (sample_photo (try_load_default load_default)) (Some 85));
           (path_720p,
            ImageFile (sample_720p (try_load_default load_default)) (Some 90));
           (path_1080p,
            ImageFile (sample_1080p (try_load_default load_default)) (Some 95));
           (path_4k,
            ImageFile (sample_4k (try_load_default load_default)) None)]
          ++ files w;
        stdout :=
          (((stdout w
             ++ ["Created sample_4k.png (3840x2160)"%string])
            ++ ["Created sample_1080p.jpg (1920x1080)"%string])
           ++ ["Created sample_720p.webp (1280x720)"%string])
          ++ ["Created sample_photo.jpg (2048x1536)"%string] |}).
Proof. destruct load_default; vm_compute; reflexivity. Qed.

Lemma saved_images (load_default : result font) (w : world) :
  let w' := snd (create_sample_images load_default w) in
  lookup path_4k (files w')
  = Some (ImageFile (sample_4k (try_load_default load_default)) None) /\
  lookup path_1080p (files w')
  = Some (ImageFile (sample_1080p (try_load_default load_default)) (Some 95)) /\
  lookup path_720p (files w')
  = Some (ImageFile (sample_720p (try_load_default load_default)) (Some 90)) /\
  lookup path_photo (files w')
  = Some (ImageFile (sample_photo (try_load_default load_default)) (Some 85)).
Proof.
  rewrite create_sample_images_run. cbv zeta.
  unfold snd, files, app. unfold lookup.
  split; [reflexivity|]. split; [reflexivity|]. split; reflexivity.
Qed.

(** ** The 1080p gradient *)

Lemma gradient_color_in_range (x : Z) :
  0 <= x < 1920 -> fill_in_range (gradient_color x) = true.
Proof.
  intros Hx. unfold gradient_color, fill_in_range, channel_in_range.
  assert (0 <= 255 * x / 1920) by (apply Z.div_pos; lia).
  assert (255 * x / 1920 <= 254)
    by (apply Z.lt_succ_r; apply Z.div_lt_upper_bound; lia).
  repeat (apply andb_true_intro; split); apply Z.leb_le; lia.
Qed.

Lemma paint_gradient_lines (c : color) (x y : Z) :
  0 <= x < 1920 -> 0 <= y < 1080 ->
  paint gradient_lines c x y = Some (gradient_color x).
Proof.
  intros Hx Hy. apply paint_common_fill.
  - intros o Ho. apply in_map_iff in Ho. destruct Ho as [i [<- _]].
    simpl. rewrite Z.eqb_refl. eexists. reflexivity.
  - intros o Ho. apply in_map_iff in Ho. destruct Ho as [i [<- _]].
    cbn [covers fill_of]. rewrite Z.eqb_refl. intros Hc.
    injection Hc as Hc.
    apply andb_prop in Hc. destruct Hc as [Hc _].
    apply andb_prop in Hc. destruct Hc as [Hc _].
    apply Z.eqb_eq in Hc. subst i.
    apply ink_in_range. apply gradient_color_in_range. exact Hx.
  - exists (line (x, 0) (x, 1080) (gradient_color x)). split.
    + unfold gradient_lines. apply in_map_iff. exists x. split; [reflexivity|].
      apply In_range. exact Hx.
    + simpl. rewrite !Z.eqb_refl. f_equal.
      apply andb_true_intro. split; [| apply Z.leb_le; lia].
      apply Z.leb_le. lia.
Qed.

(** C5: the saved 1080p image is the gradient, one vertical line per column
    drawn in column order, followed by the two stamps; the line of column
    [x] has the colour int(255 x/1920), 100, 255 - int(255 x/1920), and the
    gradient leaves every pixel of the column with it; red never decreases
    and blue never increases from a column to a later one; column 0 has the
    start colour and column 1919 is one step from the end colour. *)
Theorem gradient_1080p_lerp (load_default : result font) (w : world)
  (x x' y : Z) :
  0 <= x -> x <= x' -> x' < 1920 -> 0 <= y < 1080 ->
  exists fnt,
    lookup path_1080p (files (snd (create_sample_images load_default w)))
    = Some (ImageFile
              (mkImage "RGB" (1920, 1080) (Named "lightgreen")
                 (gradient_lines
                  ++ stamps 100 100 150 "Sample 1080p Image"
                       "Gradient Background" fnt))
              (Some 95)) /\
    nth_error gradient_lines (Z.to_nat x)
    = Some (line (x, 0) (x, 1080)
              (RGB (255 * x / 1920) 100 (255 - 255 * x / 1920))) /\
    paint gradient_lines (Named "lightgreen") x y
    = Some (RGB (255 * x / 1920) 100 (255 - 255 * x / 1920)) /\
    255 * x / 1920 <= 255 * x' / 1920 /\
    255 - 255 * x' / 1920 <= 255 - 255 * x / 1920 /\
    paint gradient_lines (Named "lightgreen") 0 y = Some (RGB 0 100 255) /\
    paint gradient_lines (Named "lightgreen") 1919 y = Some (RGB 254 100 1).
Proof.
  intros Hx Hxx' Hx' Hy.
  assert (Hmono : 255 * x / 1920 <= 255 * x' / 1920)
    by (apply Z.div_le_mono; lia).
  exists (try_load_default load_default).
  split; [apply (saved_images load_default w)|].
  split.
  { unfold gradient_lines. rewrite nth_error_map, nth_error_range by lia.
    reflexivity. }
  split; [apply paint_gradient_lines; lia|].
  split; [exact Hmono|].
  split; [lia|].
  split.
  - rewrite paint_gradient_lines by lia. reflexivity.
  - rewrite paint_gradient_lines by lia. reflexivity.
Qed.

Lemma gradient_1080p_lerp_witness :
  exists fnt,
    lookup path_1080p
      (files (snd (create_sample_images (Ok default_font) (mkWorld [] [] []))))
    = Some (ImageFile
              (mkImage "RGB" (1920, 1080) (Named "lightgreen")
                 (gradient_lines
                  ++ stamps 100 100 150 "Sample 1080p Image"
                       "Gradient Background" fnt))
              (Some 95)) /\
    nth_error gradient_lines (Z.to_nat 960)
    = Some (line (960, 0) (960, 1080)
              (RGB (255 * 960 / 1920) 100 (255 - 255 * 960 / 1920))) /\
    paint gradient_lines (Named "lightgreen") 960 540
    = Some (RGB (255 * 960 / 1920) 100 (255 - 255 * 960 / 1920)) /\
    255 * 960 / 1920 <= 255 * 1919 / 1920 /\
    255 - 255 * 1919 / 1920 <= 255 - 255 * 960 / 1920 /\
    paint gradient_lines (Named "lightgreen") 0 540 = Some (RGB 0 100 255) /\
    paint gradient_lines (Named "lightgreen") 1919 540 = Some (RGB 254 100 1).
Proof.
  apply (gradient_1080p_lerp (Ok default_font) (mkWorld [] [] []) 960 1919 540);
    lia.
Defined.

(** ** The 720p tile pattern *)

Lemma NoDup_list_prod {A B : Type} (l1 : list A) (l2 : list B) :
  NoDup l1 -> NoDup l2 -> NoDup (list_prod l1 l2).
Proof.
  intros H1 H2. induction H1 as [| a l1 Ha H1 IH]; simpl.
  - constructor.
  - apply NoDup_app.
    + apply Finite.Injective_map_NoDup; [| exact H2].
      intros b b' Hb. injection Hb as Hb. exact Hb.
    + exact IH.
    + intros [a' b'] Hin Hin'.
      apply in_map_iff in Hin. destruct Hin as [b [Hb _]].
      injection Hb as <- <-.
      apply in_prod_iff in Hin'. destruct Hin' as [Hin' _]. contradiction.
Qed.

Lemma NoDup_range3 (stop step : Z) : 0 < step -> NoDup (Py.range3 0 stop step).
Proof.
  intros Hs. unfold Py.range3. apply Finite.Injective_map_NoDup.
  - intros a b Hab. nia.
  - apply NoDup_range.
Qed.

Lemma In_grid (x y : Z) :
  In (x, y) grid <->
  exists i j, 0 <= i < 26 /\ 0 <= j < 15 /\ x = 50 * i /\ y = 50 * j.
Proof.
  unfold grid. rewrite in_prod_iff, !In_range3 by lia.
  change ((1280 + 50 - 1) / 50) with 26. change ((720 + 50 - 1) / 50) with 15.
  split.
  - intros [[i [Hi ->]] [j [Hj ->]]]. exists i, j. auto.
  - intros [i [j [Hi [Hj [-> ->]]]]]. split; [exists i | exists j]; auto.
Qed.

Lemma NoDup_grid : NoDup grid.
Proof. apply NoDup_list_prod; apply NoDup_range3; lia. Qed.

Lemma covers_tile (p : Z * Z) (px py : Z) :
  covers (tile p) px py
  = Some ((fst p <=? px) && (px <=? fst p + 40)
          && (snd p <=? py) && (py <=? snd p + 40)).
Proof. destruct p as [x y]. reflexivity. Qed.

(** The tiles do not overlap: the stride is 50 and a tile is 41 pixels wide,
    so a pixel lies in at most one tile of the grid. *)
Lemma tile_of_pixel_unique (p q : Z * Z) (px py : Z) :
  In p grid -> In q grid ->
  covers (tile p) px py = Some true -> covers (tile q) px py = Some true ->
  p = q.
Proof.
  destruct p as [x y], q as [x' y']. intros Hp Hq.
  apply In_grid in Hp. destruct Hp as [i [j [Hi [Hj [Hx Hy]]]]].
  apply In_grid in Hq. destruct Hq as [i' [j' [Hi' [Hj' [Hx' Hy']]]]].
  rewrite !covers_tile. cbn [fst snd]. intros Hc Hc'.
  injection Hc as Hc. injection Hc' as Hc'.
  repeat (apply andb_prop in Hc; destruct Hc as [Hc ?]).
  repeat (apply andb_prop in Hc'; destruct Hc' as [Hc' ?]).
  repeat match goal with H : (_ <=? _) = true |- _ => apply Z.leb_le in H end.
  f_equal; lia.
Qed.

Lemma tile_color_in_range (x y : Z) : fill_in_range (tile_color x y) = true.
Proof.
  unfold tile_color, fill_in_range, channel_in_range.
  pose proof (Z.mod_pos_bound x 255 ltac:(lia)).
  pose proof (Z.mod_pos_bound y 255 ltac:(lia)).
  pose proof (Z.mod_pos_bound (x + y) 255 ltac:(lia)).
  repeat (apply andb_true_intro; split); apply Z.leb_le; lia.
Qed.

Lemma paint_tiles (c : color) (x y px py : Z) :
  In (x, y) grid -> x <= px <= x + 40 -> y <= py <= y + 40 ->
  paint (map tile grid) c px py = Some (tile_color x y).
Proof.
  intros Hin Hpx Hpy.
  assert (Hcov : covers (tile (x, y)) px py = Some true).
  { rewrite covers_tile. cbn [fst snd]. f_equal.
    repeat (apply andb_true_intro; split); apply Z.leb_le; lia. }
  apply paint_common_fill.
  - intros o Ho. apply in_map_iff in Ho. destruct Ho as [q [<- _]].
    rewrite covers_tile. eexists. reflexivity.
  - intros o Ho Hc. apply in_map_iff in Ho. destruct Ho as [q [<- Hq]].
    rewrite <- (tile_of_pixel_unique (x, y) q px py Hin Hq Hcov Hc).
    cbn [tile fill_of]. apply ink_in_range. apply tile_color_in_range.
  - exists (tile (x, y)). split; [| exact Hcov].
    apply in_map. exact Hin.
Qed.

(** C3: the saved 720p image is, before its two stamps, one rectangle per
    corner of the grid, in the order of the loops; the grid holds no corner
    twice, has 26 x 15 corners, and holds exactly the corners (50 i, 50 j)
    with 0 <= i < 26 and 0 <= j < 15; the tile at corner (x, y) is the box
    from (x, y) to (x + 40, y + 40) filled with
    (x mod 255, y mod 255, (x + y) mod 255), and the tiling leaves every
    pixel of that box with this colour. *)
Theorem pattern_tiler_grid (load_default : result font) (w : world)
  (i j px py : Z) :
  0 <= i < 26 -> 0 <= j < 15 ->
  50 * i <= px <= 50 * i + 40 -> 50 * j <= py <= 50 * j + 40 ->
  exists fnt,
    lookup path_720p (files (snd (create_sample_images load_default w)))
    = Some (ImageFile
              (mkImage "RGB" (1280, 720) (Named "orange")
                 (map tile grid
                  ++ stamps 50 50 100 "Sample 720p Image"
                       "Pattern Background" fnt))
              (Some 90)) /\
    NoDup grid /\
    List.length grid = 390%nat /\
    (forall x y, In (x, y) grid <->
       exists i j, 0 <= i < 26 /\ 0 <= j < 15 /\ x = 50 * i /\ y = 50 * j) /\
    In (50 * i, 50 * j) grid /\
    tile (50 * i, 50 * j)
    = rectangle (50 * i, 50 * j, 50 * i + 40, 50 * j + 40)
        (RGB ((50 * i) mod 255) ((50 * j) mod 255) ((50 * i + 50 * j) mod 255))
        None 1 /\
    paint (map tile grid) (Named "orange") px py
    = Some (RGB ((50 * i) mod 255) ((50 * j) mod 255) ((50 * i + 50 * j) mod 255)).
Proof.
  intros Hi Hj Hpx Hpy.
  assert (Hin : In (50 * i, 50 * j) grid)
    by (apply In_grid; exists i, j; auto).
  exists (try_load_default load_default).
  split; [apply (saved_images load_default w)|].
  split; [exact NoDup_grid|].
  split; [reflexivity|].
  split; [exact In_grid|].
  split; [exact Hin|].
  split; [reflexivity|].
  apply (paint_tiles _ (50 * i) (50 * j)); assumption.
Qed.

Lemma pattern_tiler_grid_witness :
  exists fnt,
    lookup path_720p
      (files (snd (create_sample_images (Ok default_font) (mkWorld [] [] []))))
    = Some (ImageFile
              (mkImage "RGB" (1280, 720) (Named "orange")
                 (map tile grid
                  ++ stamps 50 50 100 "Sample 720p Image"
                       "Pattern Background" fnt))
              (Some 90)) /\
    NoDup grid /\
    List.length grid = 390%nat /\
    (forall x y, In (x, y) grid <->
       exists i j, 0 <= i < 26 /\ 0 <= j < 15 /\ x = 50 * i /\ y = 50 * j) /\
    In (50 * 25, 50 * 14) grid /\
    tile (50 * 25, 50 * 14)
    = rectangle (50 * 25, 50 * 14, 50 * 25 + 40, 50 * 14 + 40)
        (RGB ((50 * 25) mod 255) ((50 * 14) mod 255) ((50 * 25 + 50 * 14) mod 255))
        None 1 /\
    paint (map tile grid) (Named "orange") 1279 719
    = Some (RGB ((50 * 25) mod 255) ((50 * 14) mod 255) ((50 * 25 + 50 * 14) mod 255)).
Proof.
  apply (pattern_tiler_grid (Ok default_font) (mkWorld [] [] []) 25 14 1279 719);
    lia.
Defined.

(** ** The channel values passed to the drawing calls *)

(** Every fill of the 4K, 1080p and 720p samples has its three channels in
    [0, 255]. *)
Lemma other_samples_in_range (fnt : option font) :
  out_of_range (sample_4k fnt) = [] /\
  out_of_range (sample_1080p fnt) = [] /\
  out_of_range (sample_720p fnt) = [].
Proof.
  split; [vm_compute; reflexivity|].
  split; vm_compute; reflexivity.
Qed.

(** The fills the code computes for the photo-like sample: the line of
    sky row 499 is filled with (254, 274, 255), as computed and unclamped,
    and the calls with a channel outside [0, 255] are exactly the sky rows
    421 to 499. *)
Lemma photo_sky_green_exceeds_255 (load_default : result font) (w : world) :
  exists img,
    lookup path_photo (files (snd (create_sample_images load_default w)))
    = Some (ImageFile img (Some 85)) /\
    nth_error (ops img) 499
    = Some (line (0, 499) (2048, 499) (RGB 254 274 255)) /\
    fill_in_range (RGB 254 274 255) = false /\
    out_of_range img = map sky_line (Py.range2 421 500).
Proof.
  exists (sample_photo (try_load_default load_default)).
  split; [apply (saved_images load_default w)|].
  split; [vm_compute; reflexivity|].
  split; vm_compute; reflexivity.
Qed.

(** C1 as stated fails: in a run with the font at hand, the green channel
    the code computes for row 499 of the sky band is 274, outside
    [0, 255], and the code passes it on as it is. *)
Lemma sky_row_499_computes_green_274 :
  exists img,
    lookup path_photo
      (files (snd (create_sample_images (Ok default_font) (mkWorld [] [] []))))
    = Some (ImageFile img (Some 85)) /\
    nth_error (ops img) 499
    = Some (line (0, 499) (2048, 499) (RGB 254 274 255)) /\
    fill_in_range (RGB 254 274 255) = false /\
    ~ (forall op, In op (ops img) -> fill_in_range (fill_of op) = true).
Proof.
  destruct (photo_sky_green_exceeds_255 (Ok default_font) (mkWorld [] [] []))
    as [img [Hsaved [Hrow [Hout _]]]].
  exists img. split; [exact Hsaved|]. split; [exact Hrow|].
  split; [exact Hout|].
  intros Hall. apply nth_error_In in Hrow. apply Hall in Hrow.
  cbn [fill_of] in Hrow. rewrite Hout in Hrow. discriminate Hrow.
Qed.

(** ** The photo-like sample, row by row *)

Lemma In_range2 (start stop y : Z) :
  In y (Py.range2 start stop) <-> start <= y < stop.
Proof.
  unfold Py.range2, Py.range3. rewrite in_map_iff.
  replace ((stop - start + 1 - 1) / 1) with (stop - start)
    by (rewrite Z.div_1_r; lia).
  split.
  - intros [i [<- Hi]]. apply In_range in Hi. lia.
  - intros Hy. exists (y - start). split; [lia|]. apply In_range. lia.
Qed.

Lemma In_photo_bands (op : draw_op) :
  In op photo_bands ->
  exists y0, 0 <= y0 < 1536 /\ op = line (0, y0) (2048, y0) (band_color y0).
Proof.
  unfold photo_bands. rewrite in_app_iff, !in_map_iff.
  intros [[y0 [<- Hy]] | [y0 [<- Hy]]].
  - apply In_range in Hy. exists y0. split; [lia|].
    unfold sky_line, band_color.
    replace (y0 <? 500) with true by (symmetry; apply Z.ltb_lt; lia).
    reflexivity.
  - apply In_range2 in Hy. exists y0. split; [lia|].
    unfold ground_line, band_color.
    replace (y0 <? 500) with false by (symmetry; apply Z.ltb_ge; lia).
    reflexivity.
Qed.

Lemma photo_band_drawn (y : Z) :
  0 <= y < 1536 -> In (line (0, y) (2048, y) (band_color y)) photo_bands.
Proof.
  intros Hy. unfold photo_bands, band_color. apply in_app_iff.
  destruct (Z.ltb_spec y 500) as [Hlt | Hge].
  - left. apply in_map_iff. exists y. split; [reflexivity|].
    apply In_range. lia.
  - right. apply in_map_iff. exists y. split; [reflexivity|].
    apply In_range2. lia.
Qed.

Lemma covers_row (y0 : Z) (c : color) (x y : Z) :
  covers (line (0, y0) (2048, y0) c) x y
  = Some ((y =? y0) && (0 <=? x) && (x <=? 2048)).
Proof. simpl. rewrite Z.eqb_refl. reflexivity. Qed.

(** What the library stores for a row is the ink of the row's fill. *)
Lemma ink_band_color (y : Z) :
  0 <= y < 1536 -> ink (band_color y) = stored_band_color y.
Proof.
  intros Hy. unfold band_color, stored_band_color.
  destruct (Z.ltb_spec y 500) as [Hsky | Hground]; cbn [ink]; unfold clip8.
  - assert (0 <= 120 * y / 500) by (apply Z.div_pos; lia).
    assert (120 * y / 500 <= 119)
      by (apply Z.lt_succ_r; apply Z.div_lt_upper_bound; lia).
    f_equal; lia.
  - assert (0 <= 100 * (y - 500) / 1036) by (apply Z.div_pos; lia).
    assert (100 * (y - 500) / 1036 <= 99)
      by (apply Z.lt_succ_r; apply Z.div_lt_upper_bound; lia).
    f_equal; lia.
Qed.

Lemma paint_photo_bands (c : color) (x y : Z) :
  0 <= x < 2048 -> 0 <= y < 1536 ->
  paint photo_bands c x y = Some (stored_band_color y).
Proof.
  intros Hx Hy. rewrite <- (ink_band_color y Hy). revert Hx Hy.
  intros Hx Hy. apply paint_common_fill.
  - intros o Ho. apply In_photo_bands in Ho. destruct Ho as [y0 [_ ->]].
    rewrite covers_row. eexists. reflexivity.
  - intros o Ho Hc. apply In_photo_bands in Ho. destruct Ho as [y0 [_ ->]].
    rewrite covers_row in Hc. injection Hc as Hc.
    apply andb_prop in Hc. destruct Hc as [Hc _].
    apply andb_prop in Hc. destruct Hc as [Hc _].
    apply Z.eqb_eq in Hc. subst y0. reflexivity.
  - exists (line (0, y) (2048, y) (band_color y)). split.
    + apply photo_band_drawn. exact Hy.
    + rewrite covers_row, Z.eqb_refl. f_equal.
      apply andb_true_intro. split; apply Z.leb_le; lia.
Qed.


(** ** The font fallback *)

Lemma saved_texts_run (load_default : result font) (w : world) :
  let w' := snd (create_sample_images load_default w) in
  let fnt := try_load_default load_default in
  saved_texts path_4k w'
  = Some (stamps 200 200 300 "Sample 4K Image" "For CompressCLI Testing" fnt) /\
  saved_texts path_1080p w'
  = Some (stamps 100 100 150 "Sample 1080p Image" "Gradient Background" fnt) /\
  saved_texts path_720p w'
  = Some (stamps 50 50 100 "Sample 720p Image" "Pattern Background" fnt) /\
  saved_texts path_photo w'
  = Some (stamps 100 1400 1450 "Sample Photo-like Image" "Landscape Simulation"
            fnt).
Proof.
  intros w' fnt. subst w'.
  destruct (saved_images load_default w) as [H1 [H2 [H3 H4]]].
  unfold saved_texts, saved_image. rewrite H1, H2, H3, H4. fold fnt.
  generalize fnt. clear. intros fnt.
  split; [vm_compute; reflexivity|].
  split; [vm_compute; reflexivity|].
  split; vm_compute; reflexivity.
Qed.

(** Where the drawing library can load its default font by itself, a
    failure of the load of line 23 is absorbed: the font is absent, the
    function ends without raising and the two stamps of each of the four
    images are drawn with no font. *)
Lemma font_failure_absorbed (e : exn) (load_default : result font) (w : world) :
  try_load_default (Raise e) = None /\
  fst (create_sample_images (Raise e) w) = Ok tt /\
  fst (create_sample_images load_default w) = Ok tt /\
  saved_texts path_4k (snd (create_sample_images (Raise e) w))
  = Some [text (200, 200) "Sample 4K Image" (Named "white") None;
          text (200, 300) "For CompressCLI Testing" (Named "white") None] /\
  saved_texts path_1080p (snd (create_sample_images (Raise e) w))
  = Some [text (100, 100) "Sample 1080p Image" (Named "white") None;
          text (100, 150) "Gradient Background" (Named "white") None] /\
  saved_texts path_720p (snd (create_sample_images (Raise e) w))
  = Some [text (50, 50) "Sample 720p Image" (Named "white") None;
          text (50, 100) "Pattern Background" (Named "white") None] /\
  saved_texts path_photo (snd (create_sample_images (Raise e) w))
  = Some [text (100, 1400) "Sample Photo-like Image" (Named "white") None;
          text (100, 1450) "Landscape Simulation" (Named "white") None].
Proof.
  split; [reflexivity|].
  split; [rewrite create_sample_images_run; reflexivity|].
  split; [rewrite create_sample_images_run; reflexivity|].
  exact (saved_texts_run (Raise e) w).
Qed.

(** C7, at the input where the code fails: when the default font cannot be
    loaded at all, line 25 sets the font to [None], the first text call
    (line 30) makes the drawing library load the default font itself, and
    that load raises again.  The exception leaves [create_sample_images]:
    the directory is made, but no image is saved and no line is printed. *)
Theorem persistent_font_failure_escapes (e e' : exn) (w : world) :
  try_load_default (Raise e) = None /\
  text_font (Raise e') (try_load_default (Raise e)) = Raise e' /\
  create_sample_images_env (Raise e') (Raise e) w
  = (Raise e',
     {| dirs := dirs (snd (makedirs "examples/samples" w));
        files := files w;
        stdout := stdout w |}).
Proof.
  split; [reflexivity|]. split; reflexivity.
Qed.

(** ** The video field *)

Lemma set_nth_app {A : Type} (l1 l2 : list A) (a b : A) :
  Np.set_nth (l1 ++ a :: l2) (List.length l1) b = l1 ++ b :: l2.
Proof.
  induction l1 as [| c l1 IH]; simpl; [reflexivity|].
  f_equal. exact IH.
Qed.

Lemma nth_error_app_here {A : Type} (l1 l2 : list A) (a : A) :
  nth_error (l1 ++ a :: l2) (List.length l1) = Some a.
Proof. induction l1 as [| c l1 IH]; simpl; [reflexivity | exact IH]. Qed.

Lemma fold_write (f : Z -> Cv2.Frame) :
  forall (l : list Z) (out : Cv2.VideoWriter),
    fold_left (fun out k => Cv2.write out (f k)) l out
    = Cv2.mkVideoWriter (Cv2.filename out) (Cv2.fourcc out) (Cv2.fps out)
        (Cv2.frameSize out) (Cv2.written out ++ map f l).
Proof.
  induction l as [| k l IH]; intros out; simpl.
  - rewrite app_nil_r. destruct out. reflexivity.
  - rewrite IH. simpl. rewrite <- app_assoc. reflexivity.
Qed.

Section VideoRun.

Variable np_sin : float -> float.

(** The sine never yields a channel outside [0, 255] (nor a NaN or an
    infinity); a sine with values in [-1, 1] does not. *)
Hypothesis np_sin_ok : forall a : float, channel_ok (np_sin a) = true.

Lemma sinusoid_ok (k : Z) (phase : float) :
  sinusoid np_sin k phase = Ok (value (sinusoid np_sin k phase)) /\
  0 <= value (sinusoid np_sin k phase) <= 255.
Proof.
  pose proof (np_sin_ok (2 * np_pi * Py.float_of_Z k / 60 + phase)%float) as H.
  unfold channel_ok in H. unfold sinusoid.
  destruct (Py.int _) as [v | e]; [| discriminate H].
  simpl. split; [reflexivity|].
  unfold channel_in_range in H. apply andb_prop in H. destruct H as [H1 H2].
  apply Z.leb_le in H1. apply Z.leb_le in H2. lia.
Qed.

Lemma video_field_ok (k x y : Z) :
  video_field np_sin k x y
  = Ok (red np_sin k x, green np_sin k y, blue np_sin k x y).
Proof.
  change (video_field np_sin k x y)
    with (let* r := sinusoid np_sin k (Py.truediv x 100) in
          let* g := sinusoid np_sin k (Py.truediv y 100) in
          let* b := sinusoid np_sin k (Py.truediv (x + y) 200) in
          Ok (r, g, b)).
  unfold red, green, blue.
  destruct (sinusoid_ok k (Py.truediv x 100)) as [-> _].
  destruct (sinusoid_ok k (Py.truediv y 100)) as [-> _].
  destruct (sinusoid_ok k (Py.truediv (x + y) 200)) as [-> _].
  reflexivity.
Qed.

Lemma uint8_channel (k : Z) (phase : float) :
  Np.uint8 (value (sinusoid np_sin k phase)) = value (sinusoid np_sin k phase).
Proof.
  destruct (sinusoid_ok k phase) as [_ H].
  unfold Np.uint8. apply Z.mod_small. lia.
Qed.

Lemma fill_pixel_step (k y x : Z) (pre post : Np.ndarray)
  (done todo : list Np.pixel) (t : Np.pixel) :
  0 <= y -> List.length pre = Z.to_nat y -> x = Z.of_nat (List.length done) ->
  fill_pixel np_sin k y x (pre ++ (done ++ t :: todo) :: post)
  = Ok (pre ++ (done ++ field_pixel np_sin k y x :: todo) :: post).
Proof.
  intros Hy Hpre Hx.
  unfold fill_pixel. rewrite video_field_ok. cbn [bindR].
  unfold Np.setitem. rewrite <- Hpre, nth_error_app_here.
  assert (Hc : (0 <=? y) && (0 <=? x)
               && (x <? Z.of_nat (List.length (done ++ t :: todo))) = true).
  { rewrite length_app. simpl List.length.
    apply andb_true_intro. split; [apply andb_true_intro; split|].
    - apply Z.leb_le. lia.
    - apply Z.leb_le. lia.
    - apply Z.ltb_lt. lia. }
  rewrite Hc.
  replace (Z.to_nat x) with (List.length done) by lia.
  rewrite !set_nth_app.
  unfold red, green, blue. rewrite !uint8_channel. reflexivity.
Qed.

Lemma fill_row (k y : Z) (pre post : Np.ndarray) :
  0 <= y -> List.length pre = Z.to_nat y ->
  forall (n : nat) (done todo : list Np.pixel),
    List.length todo = n ->
    Py.for_each (map Z.of_nat (seq (List.length done) n)) (fill_pixel np_sin k y)
      (pre ++ (done ++ todo) :: post)
    = Ok (pre ++ (done ++ map (field_pixel np_sin k y)
                            (map Z.of_nat (seq (List.length done) n))) :: post).
Proof.
  intros Hy Hpre. induction n as [| n IH]; intros done todo Hlen.
  - apply length_zero_iff_nil in Hlen. subst todo. reflexivity.
  - destruct todo as [| t todo]; [discriminate Hlen|].
    injection Hlen as Hlen.
    cbn [seq map Py.for_each].
    rewrite (fill_pixel_step k y _ pre post done todo t Hy Hpre eq_refl).
    cbn [bindR].
    specialize (IH (done ++ [field_pixel np_sin k y (Z.of_nat (List.length done))])
                  todo Hlen).
    rewrite length_app in IH. simpl List.length in IH.
    rewrite Nat.add_1_r in IH.
    rewrite <- !app_assoc in IH. simpl app in IH.
    exact IH.
Qed.

Lemma fill_rows (k width : Z) :
  0 <= width ->
  forall (n : nat) (done todo : Np.ndarray),
    List.length todo = n ->
    Forall (fun row => List.length row = Z.to_nat width) todo ->
    Py.for_each (map Z.of_nat (seq (List.length done) n))
      (fun y frame => Py.for_each (Py.range width) (fill_pixel np_sin k y) frame)
      (done ++ todo)
    = Ok (done ++ map (fun y => map (field_pixel np_sin k y) (Py.range width))
                    (map Z.of_nat (seq (List.length done) n))).
Proof.
  intros Hw. induction n as [| n IH]; intros done todo Hlen Hrows.
  - apply length_zero_iff_nil in Hlen. subst todo. reflexivity.
  - destruct todo as [| row todo]; [discriminate Hlen|].
    injection Hlen as Hlen.
    apply Forall_cons_iff in Hrows. destruct Hrows as [Hrow Hrows].
    cbn [seq map Py.for_each].
    unfold Py.range at 1.
    pose proof (fill_row k (Z.of_nat (List.length done)) done todo
                  (Nat2Z.is_nonneg _) (eq_sym (Nat2Z.id _))
                  (Z.to_nat width) [] row Hrow) as Hfill.
    cbn [List.length app] in Hfill. rewrite Hfill.
    cbn [bindR].
    specialize (IH (done ++ [map (field_pixel np_sin k (Z.of_nat (List.length done)))
                               (map Z.of_nat (seq 0 (Z.to_nat width)))])
                  todo Hlen Hrows).
    rewrite length_app in IH. simpl List.length in IH.
    rewrite Nat.add_1_r in IH.
    rewrite <- !app_assoc in IH. simpl app in IH.
    exact IH.
Qed.

(** The two loops fill the whole array: row [y], column [x] holds the
    pixel of the closed form. *)
Lemma fill_frame_ok (width height k : Z) :
  0 <= width -> 0 <= height ->
  fill_frame np_sin width height k = Ok (field_array np_sin width height k).
Proof.
  intros Hw Hh.
  change (fill_frame np_sin width height k)
    with (let* frame := Np.zeros height width in
          Py.for_each (Py.range height)
            (fun y frame => Py.for_each (Py.range width) (fill_pixel np_sin k y) frame)
            frame).
  unfold Np.zeros.
  replace ((height <? 0) || (width <? 0)) with false
    by (symmetry; apply orb_false_intro; apply Z.ltb_ge; lia).
  cbn [bindR]. unfold Py.range at 1.
  assert (Hrows : Forall (fun row => List.length row = Z.to_nat width)
                    (repeat (repeat (0, 0, 0) (Z.to_nat width))
                       (Z.to_nat height))).
  { apply Forall_forall. intros row Hin.
    apply repeat_spec in Hin. subst row. apply repeat_length. }
  pose proof (fill_rows k width Hw (Z.to_nat height) [] _
                (repeat_length _ _) Hrows) as Hfill.
  exact Hfill.
Qed.

Lemma field_array_not_empty (width height k : Z) :
  0 < width -> 0 < height ->
  Cv2.is_empty (field_array np_sin width height k) = false.
Proof.
  intros Hw Hh. unfold field_array.
  destruct (range_head height Hh) as [ly ->].
  destruct (range_head width Hw) as [lx ->].
  reflexivity.
Qed.

Lemma synth_frame_ok (width height fps total_frames k : Z) :
  0 < width -> 0 < height ->
  synth_frame np_sin width height fps total_frames k
  = Ok (frame_of np_sin width height fps total_frames k).
Proof.
  intros Hw Hh. unfold synth_frame.
  rewrite (fill_frame_ok width height k) by lia.
  pose proof (field_array_not_empty width height k Hw Hh) as Hne.
  unfold Cv2.putText.
  repeat (cbn [bindR Cv2.pixels]; rewrite Hne).
  reflexivity.
Qed.

(** The loop over the frames hands the writer the frames of the closed
    form, in the order of their indices. *)
Lemma write_frames (width height fps total_frames : Z) (out : Cv2.VideoWriter) :
  0 < width -> 0 < height ->
  Py.for_each (Py.range total_frames) (fun frame_num out =>
    let* frame := synth_frame np_sin width height fps total_frames frame_num in
    Ok (Cv2.write out frame)) out
  = Ok (Cv2.mkVideoWriter (Cv2.filename out) (Cv2.fourcc out) (Cv2.fps out)
          (Cv2.frameSize out)
          (Cv2.written out
           ++ map (frame_of np_sin width height fps total_frames)
                (Py.range total_frames))).
Proof.
  intros Hw Hh.
  rewrite (for_each_fold _
             (fun out k =>
                Cv2.write out (frame_of np_sin width height fps total_frames k))).
  - rewrite fold_write. reflexivity.
  - intros i s' _. rewrite (synth_frame_ok _ _ _ _ _ Hw Hh). reflexivity.
Qed.

Lemma create_sample_video_run (w : world) :
  create_sample_video np_sin (Ok tt) w
  = (Ok tt,
     {| dirs := dirs w;
        files := (path_video, VideoFile (sample_video np_sin)) :: files w;
        stdout := stdout w ++ ["Created sample_video.mp4 (1280x720, 10s)"%string] |}).
Proof.
  unfold create_sample_video, try_except, bind, lift.
  cbv beta iota zeta.
  change (30 * 10) with 300.
  rewrite write_frames by lia.
  cbv beta iota zeta.
  reflexivity.
Qed.

End VideoRun.

(** ** The frames of the video *)

Lemma Forall2_map_r {A B : Type} (R : A -> B -> Prop) (f : A -> B) :
  forall l : list A, (forall a, In a l -> R a (f a)) -> Forall2 R l (map f l).
Proof.
  induction l as [| a l IH]; intros H; simpl; constructor.
  - apply H. left. reflexivity.
  - apply IH. intros b Hb. apply H. right. exact Hb.
Qed.

Lemma length_range (n : Z) : List.length (Py.range n) = Z.to_nat n.
Proof. unfold Py.range. rewrite length_map, length_seq. reflexivity. Qed.

Lemma nth_error_map_range {A : Type} (f : Z -> A) (n k : Z) :
  0 <= k < n -> nth_error (map f (Py.range n)) (Z.to_nat k) = Some (f k).
Proof.
  intros Hk. rewrite nth_error_map, nth_error_range by exact Hk. reflexivity.
Qed.

Lemma getitem_field_array (np_sin : float -> float) (width height k x y : Z) :
  0 <= x < width -> 0 <= y < height ->
  Np.getitem (field_array np_sin width height k) y x
  = Some (field_pixel np_sin k y x).
Proof.
  intros Hx Hy. unfold Np.getitem, field_array.
  rewrite nth_error_map_range by exact Hy.
  apply nth_error_map_range. exact Hx.
Qed.

(** Formatting the double [k/30] to one decimal place gives the digits of
    the exact quotient rounded to one decimal place, for every index of the
    video. *)
Lemma format_time_exact (k : Z) :
  0 <= k < 300 -> Py.format_1f (Py.truediv k 30) = one_decimal k 30.
Proof.
  intros Hk.
  assert (H : forallb (fun k => String.eqb (Py.format_1f (Py.truediv k 30))
                                  (one_decimal k 30))
                (Py.range 300) = true)
    by (vm_compute; reflexivity).
  rewrite forallb_forall in H. apply String.eqb_eq. apply H.
  apply In_range. exact Hk.
Qed.

Section VideoClaims.

Variable np_sin : float -> float.
Hypothesis np_sin_ok : forall a : float, channel_ok (np_sin a) = true.

Lemma saved_video (w : world) :
  fst (create_sample_video np_sin (Ok tt) w) = Ok tt /\
  lookup path_video (files (snd (create_sample_video np_sin (Ok tt) w)))
  = Some (VideoFile (sample_video np_sin)).
Proof.
  rewrite (create_sample_video_run np_sin np_sin_ok w).
  split; [reflexivity|].
  unfold snd, files, lookup. rewrite String.eqb_refl. reflexivity.
Qed.

Lemma nth_frame (k : Z) :
  0 <= k < 300 ->
  nth_error (Cv2.written (sample_video np_sin)) (Z.to_nat k)
  = Some (frame_of np_sin 1280 720 30 300 k).
Proof. intros Hk. apply nth_error_map_range. exact Hk. Qed.

End VideoClaims.

(** C2: in the saved video, pixel (x, y) of the frame of index k holds, in
    the storage order blue, green, red, the three channels
    int(128 + 127 sin(2 pi k/60 + phase)) with phase x/100 for red, y/100 for
    green and (x + y)/200 for blue: red does not depend on y, green does not
    depend on x, blue depends on x + y.  Every run, from any world, stores
    the same three values there. *)
Theorem video_field_sinusoids (np_sin : float -> float)
  (np_sin_ok : forall a : float, channel_ok (np_sin a) = true)
  (w : world) (x y k : Z) :
  0 <= x < 1280 -> 0 <= y < 720 -> 0 <= k < 300 ->
  exists out frame r g b,
    lookup path_video (files (snd (create_sample_video np_sin (Ok tt) w)))
    = Some (VideoFile out) /\
    nth_error (Cv2.written out) (Z.to_nat k) = Some frame /\
    sinusoid np_sin k (Py.truediv x 100) = Ok r /\
    sinusoid np_sin k (Py.truediv y 100) = Ok g /\
    sinusoid np_sin k (Py.truediv (x + y) 200) = Ok b /\
    video_field np_sin k x y = Ok (r, g, b) /\
    Np.getitem (Cv2.pixels frame) y x = Some (b, g, r) /\
    forall w' : world,
    exists out' frame',
      lookup path_video (files (snd (create_sample_video np_sin (Ok tt) w')))
      = Some (VideoFile out') /\
      nth_error (Cv2.written out') (Z.to_nat k) = Some frame' /\
      Np.getitem (Cv2.pixels frame') y x = Some (b, g, r).
Proof.
  intros Hx Hy Hk.
  exists (sample_video np_sin), (frame_of np_sin 1280 720 30 300 k).
  exists (red np_sin k x), (green np_sin k y), (blue np_sin k x y).
  split; [apply (saved_video np_sin np_sin_ok w)|].
  split; [apply nth_frame; exact Hk|].
  split; [apply (sinusoid_ok np_sin np_sin_ok)|].
  split; [apply (sinusoid_ok np_sin np_sin_ok)|].
  split; [apply (sinusoid_ok np_sin np_sin_ok)|].
  split; [apply (video_field_ok np_sin np_sin_ok)|].
  split; [apply getitem_field_array; assumption|].
  intros w'.
  exists (sample_video np_sin), (frame_of np_sin 1280 720 30 300 k).
  split; [apply (saved_video np_sin np_sin_ok w')|].
  split; [apply nth_frame; exact Hk|].
  apply getitem_field_array; assumption.
Qed.

(** A sine that is zero everywhere gives the channel 128, which is in
    range. *)
Lemma zero_sine_ok : forall a : float, channel_ok ((fun _ => 0%float) a) = true.
Proof. intros a. vm_compute. reflexivity. Qed.

Lemma video_field_sinusoids_witness :
  exists out frame r g b,
    lookup path_video
      (files (snd (create_sample_video (fun _ => 0%float) (Ok tt)
                     (mkWorld [] [] []))))
    = Some (VideoFile out) /\
    nth_error (Cv2.written out) (Z.to_nat 299) = Some frame /\
    sinusoid (fun _ => 0%float) 299 (Py.truediv 1279 100) = Ok r /\
    sinusoid (fun _ => 0%float) 299 (Py.truediv 719 100) = Ok g /\
    sinusoid (fun _ => 0%float) 299 (Py.truediv (1279 + 719) 200) = Ok b /\
    video_field (fun _ => 0%float) 299 1279 719 = Ok (r, g, b) /\
    Np.getitem (Cv2.pixels frame) 719 1279 = Some (b, g, r) /\
    forall w' : world,
    exists out' frame',
      lookup path_video
        (files (snd (create_sample_video (fun _ => 0%float) (Ok tt) w')))
      = Some (VideoFile out') /\
      nth_error (Cv2.written out') (Z.to_nat 299) = Some frame' /\
      Np.getitem (Cv2.pixels frame') 719 1279 = Some (b, g, r).
Proof.
  apply (video_field_sinusoids (fun _ => 0%float) zero_sine_ok
           (mkWorld [] [] []) 1279 719 299); lia.
Defined.

(** C4: the video function ends normally and saves a 30 frames-per-second
    video of exactly 300 frames; the frames handed to the writer are, in
    order, the frames synthesised for the indices 0, 1, ..., 299; the second
    label of the frame of index k reads "Time: " then k/30 to one decimal
    place then "s". *)
Theorem video_frames_in_order (np_sin : float -> float)
  (np_sin_ok : forall a : float, channel_ok (np_sin a) = true)
  (w : world) (k : Z) :
  0 <= k < 300 ->
  exists out frame,
    fst (create_sample_video np_sin (Ok tt) w) = Ok tt /\
    lookup path_video (files (snd (create_sample_video np_sin (Ok tt) w)))
    = Some (VideoFile out) /\
    Cv2.fps out = 30 /\
    List.length (Cv2.written out) = 300%nat /\
    Py.range 300 = map Z.of_nat (seq 0 300) /\
    Forall2 (fun i f => synth_frame np_sin 1280 720 30 300 i = Ok f)
      (Py.range 300) (Cv2.written out) /\
    nth_error (Cv2.written out) (Z.to_nat k) = Some frame /\
    nth_error (Cv2.labels frame) 1
    = Some (label ("Time: " ++ one_decimal k 30 ++ "s") 50 100).
Proof.
  intros Hk.
  exists (sample_video np_sin), (frame_of np_sin 1280 720 30 300 k).
  split; [apply (saved_video np_sin np_sin_ok w)|].
  split; [apply (saved_video np_sin np_sin_ok w)|].
  split; [reflexivity|].
  split.
  { unfold sample_video, Cv2.written. rewrite length_map, length_range.
    reflexivity. }
  split; [reflexivity|].
  split.
  { apply Forall2_map_r. intros i _.
    apply (synth_frame_ok np_sin np_sin_ok); lia. }
  split; [apply nth_frame; exact Hk|].
  unfold frame_of, Cv2.labels, frame_labels, nth_error.
  rewrite (format_time_exact k Hk). reflexivity.
Qed.

Lemma video_frames_in_order_witness :
  exists out frame,
    fst (create_sample_video (fun _ => 0%float) (Ok tt) (mkWorld [] [] []))
    = Ok tt /\
    lookup path_video
      (files (snd (create_sample_video (fun _ => 0%float) (Ok tt)
                     (mkWorld [] [] []))))
    = Some (VideoFile out) /\
    Cv2.fps out = 30 /\
    List.length (Cv2.written out) = 300%nat /\
    Py.range 300 = map Z.of_nat (seq 0 300) /\
    Forall2 (fun i f => synth_frame (fun _ => 0%float) 1280 720 30 300 i = Ok f)
      (Py.range 300) (Cv2.written out) /\
    nth_error (Cv2.written out) (Z.to_nat 44) = Some frame /\
    nth_error (Cv2.labels frame) 1
    = Some (label ("Time: " ++ one_decimal 44 30 ++ "s") 50 100).
Proof.
  apply (video_frames_in_order (fun _ => 0%float) zero_sine_ok
           (mkWorld [] [] []) 44); lia.
Defined.

(** C9: the first label of the frame of index k, the k-th frame handed to
    the writer counting from zero, reads "Frame k+1/300"; the frame of index
    0 reads "Frame 1/300" and the frame of index 299 "Frame 300/300". *)
Theorem frame_counter_one_based (np_sin : float -> float)
  (np_sin_ok : forall a : float, channel_ok (np_sin a) = true)
  (w : world) (k : Z) :
  0 <= k < 300 ->
  exists out frame first last,
    lookup path_video (files (snd (create_sample_video np_sin (Ok tt) w)))
    = Some (VideoFile out) /\
    nth_error (Cv2.written out) (Z.to_nat k) = Some frame /\
    nth_error (Cv2.labels frame) 0
    = Some (label ("Frame " ++ Py.str (k + 1) ++ "/300") 50 50) /\
    nth_error (Cv2.written out) 0 = Some first /\
    nth_error (Cv2.labels first) 0 = Some (label "Frame 1/300" 50 50) /\
    nth_error (Cv2.written out) 299 = Some last /\
    nth_error (Cv2.labels last) 0 = Some (label "Frame 300/300" 50 50).
Proof.
  intros Hk.
  exists (sample_video np_sin), (frame_of np_sin 1280 720 30 300 k).
  exists (frame_of np_sin 1280 720 30 300 0), (frame_of np_sin 1280 720 30 300 299).
  split; [apply (saved_video np_sin np_sin_ok w)|].
  split; [apply nth_frame; exact Hk|].
  split; [reflexivity|].
  split; [apply (nth_frame np_sin 0); lia|].
  split; [reflexivity|].
  split; [apply (nth_frame np_sin 299); lia|].
  reflexivity.
Qed.

Lemma frame_counter_one_based_witness :
  exists out frame first last,
    lookup path_video
      (files (snd (create_sample_video (fun _ => 0%float) (Ok tt)
                     (mkWorld [] [] []))))
    = Some (VideoFile out) /\
    nth_error (Cv2.written out) (Z.to_nat 150) = Some frame /\
    nth_error (Cv2.labels frame) 0
    = Some (label ("Frame " ++ Py.str (150 + 1) ++ "/300") 50 50) /\
    nth_error (Cv2.written out) 0 = Some first /\
    nth_error (Cv2.labels first) 0 = Some (label "Frame 1/300" 50 50) /\
    nth_error (Cv2.written out) 299 = Some last /\
    nth_error (Cv2.labels last) 0 = Some (label "Frame 300/300" 50 50).
Proof.
  apply (frame_counter_one_based (fun _ => 0%float) zero_sine_ok
           (mkWorld [] [] []) 150); lia.
Defined.

(** ** Dimensions *)

Lemma length_field_array (np_sin : float -> float) (width height k : Z) :
  List.length (field_array np_sin width height k) = Z.to_nat height /\
  Forall (fun row => List.length row = Z.to_nat width)
    (field_array np_sin width height k).
Proof.
  unfold field_array. split.
  - rewrite length_map. apply length_range.
  - apply Forall_forall. intros row Hin.
    apply in_map_iff in Hin. destruct Hin as [y [<- _]].
    rewrite length_map. apply length_range.
Qed.







(** The three cases at the size of the video and next to it. *)
Example frame_of_negative_width :
  synth_frame (fun _ => 0%float) (-1) 720 30 300 0 = Raise ValueError.
Proof. reflexivity. Qed.

Example frame_of_zero_height :
  synth_frame (fun _ => 0%float) 1280 0 30 300 0 = Raise Cv2Error.
Proof. vm_compute. reflexivity. Qed.

Example frame_of_one_pixel :
  fst (Cv2.frameSize (Cv2.mkVideoWriter path_video "mp4v" 30 (1, 1) [])) = 1 /\
  exists labels,
    synth_frame (fun _ => 0%float) 1 1 30 300 0
    = Ok (Cv2.mkFrame [[(128, 128, 128)]] labels).
Proof. split; [reflexivity|]. eexists. vm_compute. reflexivity. Qed.

(** ** The video collaborator missing *)

(** C6: when [import cv2] raises [ImportError], [create_sample_video] ends
    without raising, prints the two lines of the notice and changes nothing
    else: no file is written and the files already there stay.  In the whole
    script the four images are then saved as they are when the import
    succeeds, no video file is added, and the script ends normally. *)
Theorem video_skipped_without_cv2 (np_sin : float -> float)
  (load_default : result font) (w : world) :
  create_sample_video np_sin (Raise ImportError) w
  = (Ok tt,
     {| dirs := dirs w;
        files := files w;
        stdout :=
          (stdout w ++ ["OpenCV not available, skipping video creation"%string])
          ++ ["To create sample video, install: pip install opencv-python numpy"%string]
     |}) /\
  fst (main np_sin load_default (Raise ImportError) w) = Ok tt /\
  files (snd (main np_sin load_default (Raise ImportError) w))
  = files (snd (create_sample_images load_default w)) /\
  lookup path_video (files (snd (main np_sin load_default (Raise ImportError) w)))
  = lookup path_video (files w) /\
  lookup path_4k (files (snd (main np_sin load_default (Raise ImportError) w)))
  = Some (ImageFile (sample_4k (try_load_default load_default)) None).
Proof.
  split; [reflexivity|].
  unfold main, bind, print.
  rewrite create_sample_images_run.
  rewrite create_sample_images_run.
  split; [reflexivity|].
  split; [reflexivity|].
  split; reflexivity.
Qed.


(** ** The stored channels *)

Lemma photo_out_of_range (fnt : option font) :
  out_of_range (sample_photo fnt) = map sky_line (Py.range2 421 500).
Proof. vm_compute. reflexivity. Qed.

Lemma photo_sky_row (fnt : option font) (y : Z) :
  0 <= y < 500 ->
  nth_error (ops (sample_photo fnt)) (Z.to_nat y) = Some (sky_line y).
Proof.
  intros Hy. unfold sample_photo, ops.
  rewrite nth_error_app1
    by (rewrite length_map, length_range; apply Z2Nat.inj_lt; lia).
  apply nth_error_map_range. exact Hy.
Qed.

(** C1, amended: the channels stored are in [0, 255], the channels computed
    are not.  On sky row [y] of the photo-like sample the code computes the
    fill (c, c + 20, 255) with c = 135 + 120 y / 500 and passes it on as it
    is; c + 20 exceeds 255 exactly on the rows 421..499, the only calls of
    that image with a channel out of range, and the library stores
    (c, min (c + 20) 255, 255).  Whatever the calls, the library writes
    channels of [0, 255] only.  In the video every pixel of every frame
    holds three channels of [0, 255], the sine being in [-1, 1]. *)
Theorem stored_channels_in_range (np_sin : float -> float)
  (np_sin_ok : forall a : float, channel_ok (np_sin a) = true)
  (load_default : result font) (w w' : world) (x y k vx vy : Z) :
  0 <= x < 2048 -> 0 <= y < 500 ->
  0 <= k < 300 -> 0 <= vx < 1280 -> 0 <= vy < 720 ->
  (exists img,
     lookup path_photo (files (snd (create_sample_images load_default w)))
     = Some (ImageFile img (Some 85)) /\
     nth_error (ops img) (Z.to_nat y)
     = Some (line (0, y) (2048, y)
               (RGB (135 + 120 * y / 500) (135 + 120 * y / 500 + 20) 255)) /\
     paint photo_bands (background img) x y
     = Some (RGB (135 + 120 * y / 500)
               (Z.min (135 + 120 * y / 500 + 20) 255) 255) /\
     135 <= 135 + 120 * y / 500 <= 254 /\
     155 <= Z.min (135 + 120 * y / 500 + 20) 255 <= 255 /\
     (255 < 135 + 120 * y / 500 + 20 <-> 421 <= y) /\
     out_of_range img = map sky_line (Py.range2 421 500)) /\
  (forall fnt : option font,
     out_of_range (sample_4k fnt) = [] /\
     out_of_range (sample_1080p fnt) = [] /\
     out_of_range (sample_720p fnt) = []) /\
  (forall (l : list draw_op) (c col : color) (px py : Z),
     fill_in_range c = true -> paint l c px py = Some col ->
     fill_in_range col = true) /\
  (exists out frame b g r,
     lookup path_video (files (snd (create_sample_video np_sin (Ok tt) w')))
     = Some (VideoFile out) /\
     nth_error (Cv2.written out) (Z.to_nat k) = Some frame /\
     Np.getitem (Cv2.pixels frame) vy vx = Some (b, g, r) /\
     0 <= b <= 255 /\ 0 <= g <= 255 /\ 0 <= r <= 255).
Proof.
  intros Hx Hy Hk Hvx Hvy.
  assert (Hq : 0 <= 120 * y / 500 <= 119).
  { split; [apply Z.div_pos; lia|].
    apply Z.lt_succ_r. apply Z.div_lt_upper_bound; lia. }
  split.
  { exists (sample_photo (try_load_default load_default)).
    split; [apply (saved_images load_default w)|].
    split; [apply photo_sky_row; exact Hy|].
    split.
    { rewrite paint_photo_bands by lia. unfold stored_band_color.
      replace (y <? 500) with true by (symmetry; apply Z.ltb_lt; lia).
      reflexivity. }
    split; [lia|]. split; [lia|].
    split; [| apply photo_out_of_range].
    split; intros H.
    - assert (H' : 101 <= 120 * y / 500) by lia.
      destruct (Z_lt_dec y 421) as [Hlt | Hge]; [| lia].
      assert (120 * y / 500 < 101) by (apply Z.div_lt_upper_bound; lia).
      lia.
    - assert (101 <= 120 * y / 500) by (apply Z.div_le_lower_bound; lia).
      lia. }
  split; [exact other_samples_in_range|].
  split; [intros l c col px py; apply paint_in_range|].
  exists (sample_video np_sin), (frame_of np_sin 1280 720 30 300 k).
  exists (blue np_sin k vx vy), (green np_sin k vy), (red np_sin k vx).
  split; [apply (saved_video np_sin np_sin_ok w')|].
  split; [apply nth_frame; exact Hk|].
  split; [apply getitem_field_array; assumption|].
  split; [apply (sinusoid_ok np_sin np_sin_ok)|].
  split; apply (sinusoid_ok np_sin np_sin_ok).
Qed.

Lemma stored_channels_in_range_witness :
  (exists img,
     lookup path_photo
       (files (snd (create_sample_images (Ok default_font) (mkWorld [] [] []))))
     = Some (ImageFile img (Some 85)) /\
     nth_error (ops img) (Z.to_nat 499)
     = Some (line (0, 499) (2048, 499)
               (RGB (135 + 120 * 499 / 500) (135 + 120 * 499 / 500 + 20) 255)) /\
     paint photo_bands (background img) 0 499
     = Some (RGB (135 + 120 * 499 / 500)
               (Z.min (135 + 120 * 499 / 500 + 20) 255) 255) /\
     135 <= 135 + 120 * 499 / 500 <= 254 /\
     155 <= Z.min (135 + 120 * 499 / 500 + 20) 255 <= 255 /\
     (255 < 135 + 120 * 499 / 500 + 20 <-> 421 <= 499) /\
     out_of_range img = map sky_line (Py.range2 421 500)) /\
  (forall fnt : option font,
     out_of_range (sample_4k fnt) = [] /\
     out_of_range (sample_1080p fnt) = [] /\
     out_of_range (sample_720p fnt) = []) /\
  (forall (l : list draw_op) (c col : color) (px py : Z),
     fill_in_range c = true -> paint l c px py = Some col ->
     fill_in_range col = true) /\
  (exists out frame b g r,
     lookup path_video
       (files (snd (create_sample_video (fun _ => 0%float) (Ok tt)
                      (mkWorld [] [] []))))
     = Some (VideoFile out) /\
     nth_error (Cv2.written out) (Z.to_nat 299) = Some frame /\
     Np.getitem (Cv2.pixels frame) 719 1279 = Some (b, g, r) /\
     0 <= b <= 255 /\ 0 <= g <= 255 /\ 0 <= r <= 255).
Proof.
  apply (stored_channels_in_range (fun _ => 0%float) zero_sine_ok
           (Ok default_font) (mkWorld [] [] []) (mkWorld [] [] [])
           0 499 299 1279 719); lia.
Defined.

(** ** The period of the field

    In exact arithmetic the arguments of the sine at the frames [k] and
    [k + 60] differ by 2 pi.  In double precision they do not: at frame 60
    and phase 0 the argument is the double below [2 * np.pi], while at frame
    0 it is 0. *)










(** * Further properties of the code *)

(** ** The photo-like sample *)

(** X1: the saved photo-like image is the sky rows 0..499, then the ground
    rows 500..1535, then the mountains and the two stamps; the two loops,
    which compute in double precision, leave every pixel of the 2048 x 1536
    canvas with the stored colour of its row in exact arithmetic, the sky's
    green clipped at 255 by the library, so the background shows nowhere;
    within a band the first channel never decreases from a row to a lower
    one. *)
Theorem photo_bands_cover (load_default : result font) (w : world)
  (x y y' : Z) :
  0 <= x < 2048 -> 0 <= y -> y <= y' -> y' < 1536 ->
  exists img,
    lookup path_photo (files (snd (create_sample_images load_default w)))
    = Some (ImageFile img (Some 85)) /\
    background img = Named "lightblue" /\
    firstn 1536 (ops img) = photo_bands /\
    paint photo_bands (background img) x y
    = Some (if y <? 500 then
              RGB (135 + 120 * y / 500)
                (Z.min (135 + 120 * y / 500 + 20) 255) 255
            else
              RGB (34 + 100 * (y - 500) / 1036)
                (34 + 100 * (y - 500) / 1036 + 50)
                (34 + 100 * (y - 500) / 1036)) /\
    (y' < 500 -> 135 + 120 * y / 500 <= 135 + 120 * y' / 500 <= 254) /\
    (500 <= y ->
     34 <= 34 + 100 * (y - 500) / 1036 <= 34 + 100 * (y' - 500) / 1036 /\
     34 + 100 * (y' - 500) / 1036 <= 133).
Proof.
  intros Hx Hy Hyy' Hy'.
  exists (sample_photo (try_load_default load_default)).
  split; [apply (saved_images load_default w)|].
  split; [reflexivity|].
  split.
  { unfold sample_photo, ops. fold photo_bands.
    rewrite app_assoc. fold photo_bands.
    assert (Hlen : List.length photo_bands = 1536%nat) by reflexivity.
    rewrite <- Hlen at 1. rewrite firstn_app, Nat.sub_diag, firstn_all.
    simpl firstn. apply app_nil_r. }
  split; [apply paint_photo_bands; lia|].
  split.
  - intros Hsky.
    assert (120 * y / 500 <= 120 * y' / 500) by (apply Z.div_le_mono; lia).
    assert (120 * y' / 500 <= 119)
      by (apply Z.lt_succ_r; apply Z.div_lt_upper_bound; lia).
    lia.
  - intros Hground.
    assert (0 <= 100 * (y - 500) / 1036) by (apply Z.div_pos; lia).
    assert (100 * (y - 500) / 1036 <= 100 * (y' - 500) / 1036)
      by (apply Z.div_le_mono; lia).
    assert (100 * (y' - 500) / 1036 <= 99)
      by (apply Z.lt_succ_r; apply Z.div_lt_upper_bound; lia).
    lia.
Qed.

Lemma photo_bands_cover_witness :
  exists img,
    lookup path_photo
      (files (snd (create_sample_images (Ok default_font) (mkWorld [] [] []))))
    = Some (ImageFile img (Some 85)) /\
    background img = Named "lightblue" /\
    firstn 1536 (ops img) = photo_bands /\
    paint photo_bands (background img) 2047 421
    = Some (if 421 <? 500 then
              RGB (135 + 120 * 421 / 500)
                (Z.min (135 + 120 * 421 / 500 + 20) 255) 255
            else
              RGB (34 + 100 * (421 - 500) / 1036)
                (34 + 100 * (421 - 500) / 1036 + 50)
                (34 + 100 * (421 - 500) / 1036)) /\
    (499 < 500 -> 135 + 120 * 421 / 500 <= 135 + 120 * 499 / 500 <= 254) /\
    (500 <= 421 ->
     34 <= 34 + 100 * (421 - 500) / 1036 <= 34 + 100 * (499 - 500) / 1036 /\
     34 + 100 * (499 - 500) / 1036 <= 133).
Proof.
  apply (photo_bands_cover (Ok default_font) (mkWorld [] [] []) 2047 421 499);
    lia.
Defined.

(** ** The tiles and their gaps *)

Lemma paint_uncovered (x y : Z) :
  forall (l : list draw_op) (c : color),
    (forall o, In o l -> covers o x y = Some false) ->
    paint l c x y = Some c.
Proof.
  induction l as [| op l IH]; intros c H; simpl; [reflexivity|].
  rewrite (H op (or_introl eq_refl)).
  apply IH. intros o Ho. apply H. right. exact Ho.
Qed.

Lemma gap_uncovered (q : Z * Z) (px py : Z) :
  In q grid -> 40 < px mod 50 \/ 40 < py mod 50 ->
  covers (tile q) px py = Some false.
Proof.
  destruct q as [x y]. intros Hq Hgap.
  apply In_grid in Hq. destruct Hq as [i [j [Hi [Hj [Hx Hy]]]]].
  rewrite covers_tile. cbn [fst snd]. f_equal.
  destruct (Z.leb_spec x px), (Z.leb_spec px (x + 40)),
    (Z.leb_spec y py), (Z.leb_spec py (y + 40)); try reflexivity.
  exfalso.
  assert (Hpx : px mod 50 = px - x).
  { symmetry. apply (Z.mod_unique_pos px 50 i); lia. }
  assert (Hpy : py mod 50 = py - y).
  { symmetry. apply (Z.mod_unique_pos py 50 j); lia. }
  lia.
Qed.

Lemma saved_720p_tiles (load_default : result font) (w : world) :
  exists img,
    lookup path_720p (files (snd (create_sample_images load_default w)))
    = Some (ImageFile img (Some 90)) /\
    size img = (1280, 720) /\
    background img = Named "orange" /\
    firstn 390 (ops img) = map tile grid /\
    skipn 390 (ops img) = texts_of img.
Proof.
  exists (sample_720p (try_load_default load_default)).
  split; [apply (saved_images load_default w)|].
  split; [reflexivity|]. split; [reflexivity|].
  generalize (try_load_default load_default). intros fnt.
  split; vm_compute; reflexivity.
Qed.

(** X2: the tiling pass determines every pixel of the 1280 x 720 canvas: a
    pixel whose two coordinates are at most 40 modulo 50 lies in the tile of
    corner (50 (px / 50), 50 (py / 50)) and takes its colour; every other
    pixel lies in a gap between tiles and keeps the background. *)
Theorem tiling_pixel_map (load_default : result font) (w : world)
  (px py : Z) :
  0 <= px < 1280 -> 0 <= py < 720 ->
  exists img,
    lookup path_720p (files (snd (create_sample_images load_default w)))
    = Some (ImageFile img (Some 90)) /\
    skipn 390 (ops img) = texts_of img /\
    paint (firstn 390 (ops img)) (background img) px py
    = Some (if (px mod 50 <=? 40) && (py mod 50 <=? 40) then
              RGB ((50 * (px / 50)) mod 255) ((50 * (py / 50)) mod 255)
                ((50 * (px / 50) + 50 * (py / 50)) mod 255)
            else Named "orange").
Proof.
  intros Hpx Hpy.
  destruct (saved_720p_tiles load_default w)
    as [img [Hsaved [_ [Hbg [Htiles Hst]]]]].
  exists img. split; [exact Hsaved|]. split; [exact Hst|].
  rewrite Hbg, Htiles.
  pose proof (Z.mod_pos_bound px 50 ltac:(lia)) as Hmx.
  pose proof (Z.mod_pos_bound py 50 ltac:(lia)) as Hmy.
  pose proof (Z.div_mod px 50 ltac:(lia)) as Hdx.
  pose proof (Z.div_mod py 50 ltac:(lia)) as Hdy.
  destruct (Z.leb_spec (px mod 50) 40) as [Hx | Hx];
    destruct (Z.leb_spec (py mod 50) 40) as [Hy | Hy]; cbn [andb].
  - apply (paint_tiles _ (50 * (px / 50)) (50 * (py / 50))); [| lia | lia].
    apply In_grid. exists (px / 50), (py / 50).
    assert (0 <= px / 50 < 26)
      by (split; [apply Z.div_pos; lia | apply Z.div_lt_upper_bound; lia]).
    assert (0 <= py / 50 < 15)
      by (split; [apply Z.div_pos; lia | apply Z.div_lt_upper_bound; lia]).
    auto.
  - apply paint_uncovered. intros o Ho.
    apply in_map_iff in Ho. destruct Ho as [q [<- Hq]].
    apply gap_uncovered; [exact Hq | right; exact Hy].
  - apply paint_uncovered. intros o Ho.
    apply in_map_iff in Ho. destruct Ho as [q [<- Hq]].
    apply gap_uncovered; [exact Hq | left; exact Hx].
  - apply paint_uncovered. intros o Ho.
    apply in_map_iff in Ho. destruct Ho as [q [<- Hq]].
    apply gap_uncovered; [exact Hq | left; exact Hx].
Qed.

Lemma tiling_pixel_map_witness :
  exists img,
    lookup path_720p
      (files (snd (create_sample_images (Ok default_font) (mkWorld [] [] []))))
    = Some (ImageFile img (Some 90)) /\
    skipn 390 (ops img) = texts_of img /\
    paint (firstn 390 (ops img)) (background img) 1245 100
    = Some (if (1245 mod 50 <=? 40) && (100 mod 50 <=? 40) then
              RGB ((50 * (1245 / 50)) mod 255) ((50 * (100 / 50)) mod 255)
                ((50 * (1245 / 50) + 50 * (100 / 50)) mod 255)
            else Named "orange").
Proof.
  apply (tiling_pixel_map (Ok default_font) (mkWorld [] [] []) 1245 100); lia.
Defined.

(** X3: the tiler draws past the canvas: a tile of the grid lies inside the
    1280 x 720 canvas exactly when its corner has x <= 1200 and y <= 650;
    the 40 tiles of the last column (x = 1250) and of the last row (y = 700)
    reach beyond the right or the bottom edge, and are the only calls of the
    tiling that do. *)
Theorem tiles_past_the_canvas (load_default : result font) (w : world)
  (x y : Z) :
  In (x, y) grid ->
  exists img,
    lookup path_720p (files (snd (create_sample_images load_default w)))
    = Some (ImageFile img (Some 90)) /\
    In (tile (x, y)) (ops img) /\
    (box_inside (size img) (tile (x, y)) = true <-> x <= 1200 /\ y <= 650) /\
    (box_inside (size img) (tile (x, y)) = false <-> x = 1250 \/ y = 700) /\
    filter (fun op => negb (box_inside (size img) op)) (ops img)
    = map tile (filter (fun p => (fst p =? 1250) || (snd p =? 700)) grid) /\
    List.length (filter (fun op => negb (box_inside (size img) op)) (ops img))
    = 40%nat.
Proof.
  intros Hin.
  exists (sample_720p (try_load_default load_default)).
  split; [apply (saved_images load_default w)|].
  split.
  { unfold sample_720p, ops. apply in_app_iff. left. apply in_map. exact Hin. }
  change (size (sample_720p (try_load_default load_default))) with (1280, 720).
  generalize (try_load_default load_default). intros fnt.
  apply In_grid in Hin.
  destruct Hin as [i [j [Hi [Hj [Hx Hy]]]]].
  assert (Hbox : box_inside (1280, 720) (tile (x, y))
                 = (0 <=? x) && (x + 40 <? 1280) && (0 <=? y) && (y + 40 <? 720))
    by reflexivity.
  rewrite Hbox.
  split; [| split; [| split; vm_compute; reflexivity]].
  - rewrite !andb_true_iff, !Z.leb_le, !Z.ltb_lt. lia.
  - rewrite !andb_false_iff, !Z.leb_gt, !Z.ltb_ge. lia.
Qed.

Lemma tiles_past_the_canvas_witness :
  exists img,
    lookup path_720p
      (files (snd (create_sample_images (Ok default_font) (mkWorld [] [] []))))
    = Some (ImageFile img (Some 90)) /\
    In (tile (1250, 0)) (ops img) /\
    (box_inside (size img) (tile (1250, 0)) = true <-> 1250 <= 1200 /\ 0 <= 650) /\
    (box_inside (size img) (tile (1250, 0)) = false <-> 1250 = 1250 \/ 0 = 700) /\
    filter (fun op => negb (box_inside (size img) op)) (ops img)
    = map tile (filter (fun p => (fst p =? 1250) || (snd p =? 700)) grid) /\
    List.length (filter (fun op => negb (box_inside (size img) op)) (ops img))
    = 40%nat.
Proof.
  apply (tiles_past_the_canvas (Ok default_font) (mkWorld [] [] []) 1250 0).
  apply In_grid. exists 25, 0. lia.
Defined.

(** X4: no two tiles of the pattern have the same colour, and no channel of
    a tile reaches 255: the channels are taken modulo 255, not 256. *)
Theorem tile_colors_distinct (load_default : result font) (w : world)
  (p q : Z * Z) :
  In p grid -> In q grid ->
  exists img,
    lookup path_720p (files (snd (create_sample_images load_default w)))
    = Some (ImageFile img (Some 90)) /\
    In (tile p) (ops img) /\ In (tile q) (ops img) /\
    (fill_of (tile p) = fill_of (tile q) -> p = q) /\
    (forall r g b, fill_of (tile p) = RGB r g b ->
       0 <= r <= 254 /\ 0 <= g <= 254 /\ 0 <= b <= 254).
Proof.
  intros Hp Hq.
  exists (sample_720p (try_load_default load_default)).
  split; [apply (saved_images load_default w)|].
  split.
  { unfold sample_720p, ops. apply in_app_iff. left. apply in_map. exact Hp. }
  split.
  { unfold sample_720p, ops. apply in_app_iff. left. apply in_map. exact Hq. }
  revert Hp Hq.
  destruct p as [x y], q as [x' y']. cbn [fst snd tile fill_of]. intros Hp Hq.
  apply In_grid in Hp. destruct Hp as [i [j [Hi [Hj [Hx Hy]]]]].
  apply In_grid in Hq. destruct Hq as [i' [j' [Hi' [Hj' [Hx' Hy']]]]].
  split.
  - unfold tile_color. intros Heq. injection Heq as Hr Hg _.
    assert (Hcol : forall a b, 0 <= a < 26 -> 0 <= b < 26 ->
                     (50 * a) mod 255 = (50 * b) mod 255 -> a = b).
    { intros a b Ha Hb Hab.
      pose proof (Z.div_mod (50 * a) 255 ltac:(lia)) as Ea.
      pose proof (Z.div_mod (50 * b) 255 ltac:(lia)) as Eb.
      pose proof (Z.mod_pos_bound (50 * a) 255 ltac:(lia)).
      assert (H5 : 0 <= 50 * a / 255 <= 5)
        by (split; [apply Z.div_pos; lia
                   | apply Z.lt_succ_r; apply Z.div_lt_upper_bound; lia]).
      assert (H5' : 0 <= 50 * b / 255 <= 5)
        by (split; [apply Z.div_pos; lia
                   | apply Z.lt_succ_r; apply Z.div_lt_upper_bound; lia]).
      lia. }
    subst x y x' y'.
    rewrite (Hcol i i') by (assumption || lia).
    rewrite (Hcol j j') by (assumption || lia).
    reflexivity.
  - unfold tile_color. intros r g b Heq. injection Heq as <- <- <-.
    pose proof (Z.mod_pos_bound x 255 ltac:(lia)).
    pose proof (Z.mod_pos_bound y 255 ltac:(lia)).
    pose proof (Z.mod_pos_bound (x + y) 255 ltac:(lia)).
    lia.
Qed.

Lemma tile_colors_distinct_witness :
  exists img,
    lookup path_720p
      (files (snd (create_sample_images (Ok default_font) (mkWorld [] [] []))))
    = Some (ImageFile img (Some 90)) /\
    In (tile (0, 0)) (ops img) /\ In (tile (1250, 700)) (ops img) /\
    (fill_of (tile (0, 0)) = fill_of (tile (1250, 700)) -> (0, 0) = (1250, 700)) /\
    (forall r g b, fill_of (tile (0, 0)) = RGB r g b ->
       0 <= r <= 254 /\ 0 <= g <= 254 /\ 0 <= b <= 254).
Proof.
  apply (tile_colors_distinct (Ok default_font) (mkWorld [] [] [])
           (0, 0) (1250, 700)); apply In_grid.
  - exists 0, 0. lia.
  - exists 25, 14. lia.
Defined.

(** ** The levels of the gradient *)

(** X5: the 1080p gradient uses every red level from 0 to 254, each on
    some column, paired with green 100 and blue 255 - red; no line of it has
    red 255 or blue 0, so the end colour (255, 100, 0) is never drawn. *)
Theorem gradient_levels (load_default : result font) (w : world) (v : Z) :
  0 <= v <= 254 ->
  exists img x,
    lookup path_1080p (files (snd (create_sample_images load_default w)))
    = Some (ImageFile img (Some 95)) /\
    0 <= x < 1920 /\
    nth_error (ops img) (Z.to_nat x)
    = Some (line (x, 0) (x, 1080) (RGB v 100 (255 - v))) /\
    forallb complementary (ops img) = true.
Proof.
  intros Hv.
  exists (sample_1080p (try_load_default load_default)).
  exists ((1920 * v + 254) / 255).
  split; [apply (saved_images load_default w)|].
  pose proof (Z.div_mod (1920 * v + 254) 255 ltac:(lia)) as Hq.
  pose proof (Z.mod_pos_bound (1920 * v + 254) 255 ltac:(lia)) as Hr.
  set (x := (1920 * v + 254) / 255) in *.
  assert (Hx : 0 <= x < 1920) by lia.
  assert (Hlevel : 255 * x / 1920 = v).
  { symmetry. apply (Z.div_unique_pos (255 * x) 1920 v (255 * x - 1920 * v)); lia. }
  split; [exact Hx|].
  split.
  - unfold sample_1080p, ops.
    rewrite nth_error_app1.
    + unfold gradient_lines. rewrite nth_error_map_range by exact Hx.
      unfold gradient_color. rewrite Hlevel. reflexivity.
    + unfold gradient_lines. rewrite length_map, length_range. lia.
  - generalize (try_load_default load_default). intros fnt.
    vm_compute. reflexivity.
Qed.

Lemma gradient_levels_witness :
  exists img x,
    lookup path_1080p
      (files (snd (create_sample_images (Ok default_font) (mkWorld [] [] []))))
    = Some (ImageFile img (Some 95)) /\
    0 <= x < 1920 /\
    nth_error (ops img) (Z.to_nat x)
    = Some (line (x, 0) (x, 1080) (RGB 254 100 (255 - 254))) /\
    forallb complementary (ops img) = true.
Proof.
  apply (gradient_levels (Ok default_font) (mkWorld [] [] []) 254); lia.
Defined.

(** ** What [create_sample_images] touches *)

Lemma stdout_after_images (load_default : result font) (w : world) :
  stdout (snd (create_sample_images load_default w)) = stdout w ++ lines_images.
Proof.
  rewrite create_sample_images_run. cbn [snd stdout].
  rewrite <- !app_assoc. reflexivity.
Qed.

Lemma files_after_images (load_default : result font) (w : world) :
  files (snd (create_sample_images load_default w))
  = image_files (try_load_default load_default) ++ files w.
Proof. rewrite create_sample_images_run. reflexivity. Qed.

Lemma dirs_after_images (load_default : result font) (w : world) (d : string) :
  In d (dirs (snd (create_sample_images load_default w)))
  <-> d = "examples/samples"%string \/ In d (dirs w).
Proof.
  rewrite create_sample_images_run. cbn [snd dirs makedirs].
  destruct (existsb (String.eqb "examples/samples") (dirs w)) eqn:He.
  - apply existsb_exists in He. destruct He as [d' [Hd' He]].
    apply String.eqb_eq in He. subst d'.
    split; [auto | intros [-> | H]; assumption].
  - cbn [In]. split; intros [H | H]; auto.
Qed.

Lemma lookup_other (p : string) (fnt : option font)
  (fs : list (string * artifact)) :
  p <> path_4k -> p <> path_1080p -> p <> path_720p -> p <> path_photo ->
  lookup p (image_files fnt ++ fs) = lookup p fs.
Proof.
  intros H1 H2 H3 H4. unfold image_files. cbn [app lookup].
  apply String.eqb_neq in H1, H2, H3, H4.
  rewrite H1, H2, H3, H4. reflexivity.
Qed.

(** X6: [create_sample_images] leaves every file but its four as it was,
    whatever was there before; it only adds lines to the output, its four
    progress lines in order; afterwards the directory examples/samples
    exists and every directory that was there before still does. *)
Theorem images_touch_only_their_files (load_default : result font) (w : world)
  (p : string) :
  p <> path_4k -> p <> path_1080p -> p <> path_720p -> p <> path_photo ->
  lookup p (files (snd (create_sample_images load_default w)))
  = lookup p (files w) /\
  stdout (snd (create_sample_images load_default w))
  = stdout w
    ++ ["Created sample_4k.png (3840x2160)"%string;
        "Created sample_1080p.jpg (1920x1080)"%string;
        "Created sample_720p.webp (1280x720)"%string;
        "Created sample_photo.jpg (2048x1536)"%string] /\
  In "examples/samples"%string
    (dirs (snd (create_sample_images load_default w))) /\
  forall d : string,
    In d (dirs w) -> In d (dirs (snd (create_sample_images load_default w))).
Proof.
  intros H1 H2 H3 H4.
  split.
  - rewrite files_after_images. apply lookup_other; assumption.
  - split; [apply stdout_after_images|].
    split.
    + apply dirs_after_images. left. reflexivity.
    + intros d Hd. apply dirs_after_images. right. exact Hd.
Qed.

Lemma images_touch_only_their_files_witness :
  lookup path_video
    (files (snd (create_sample_images (Ok default_font) (mkWorld [] [] []))))
  = lookup path_video (files (mkWorld [] [] [])) /\
  stdout (snd (create_sample_images (Ok default_font) (mkWorld [] [] [])))
  = stdout (mkWorld [] [] [])
    ++ ["Created sample_4k.png (3840x2160)"%string;
        "Created sample_1080p.jpg (1920x1080)"%string;
        "Created sample_720p.webp (1280x720)"%string;
        "Created sample_photo.jpg (2048x1536)"%string] /\
  In "examples/samples"%string
    (dirs (snd (create_sample_images (Ok default_font) (mkWorld [] [] [])))) /\
  forall d : string,
    In d (dirs (mkWorld [] [] [])) ->
    In d (dirs (snd (create_sample_images (Ok default_font) (mkWorld [] [] [])))).
Proof.
  apply (images_touch_only_their_files (Ok default_font) (mkWorld [] [] [])
           path_video);
    intros H; vm_compute in H; discriminate H.
Defined.

(** X7: generating the images a second time changes nothing that can be
    read back: the directories are the same list, every path names the same
    file as after the first run, and the result is the same; only the four
    progress lines are printed again. *)
Theorem images_regenerate_identically (load_default : result font) (w : world)
  (p : string) :
  let w1 := snd (create_sample_images load_default w) in
  let w2 := snd (create_sample_images load_default w1) in
  fst (create_sample_images load_default w1) = Ok tt /\
  dirs w2 = dirs w1 /\
  lookup p (files w2) = lookup p (files w1) /\
  stdout w2 = stdout w1 ++ lines_images.
Proof.
  intros w1 w2. subst w2.
  split; [rewrite create_sample_images_run; reflexivity|].
  split.
  - rewrite (create_sample_images_run load_default w1). cbn [snd dirs makedirs].
    replace (existsb (String.eqb "examples/samples") (dirs w1)) with true;
      [reflexivity|].
    symmetry. apply existsb_exists. exists "examples/samples"%string.
    split; [| apply String.eqb_refl].
    apply dirs_after_images. left. reflexivity.
  - split; [| apply stdout_after_images].
    rewrite (files_after_images load_default w1).
    subst w1. rewrite (files_after_images load_default w).
    generalize (try_load_default load_default). intros fnt.
    unfold image_files. cbn [app lookup].
    destruct (String.eqb p path_photo); [reflexivity|].
    destruct (String.eqb p path_720p); [reflexivity|].
    destruct (String.eqb p path_1080p); [reflexivity|].
    destruct (String.eqb p path_4k); reflexivity.
Qed.

(** X8: in each of the four saved images the two text stamps are the last
    two calls and no text is drawn before them, so no shape, line or tile is
    ever drawn over a stamp. *)
Theorem stamps_drawn_last (load_default : result font) (w : world) :
  let w' := snd (create_sample_images load_default w) in
  option_map stamps_last (saved_image path_4k w') = Some true /\
  option_map stamps_last (saved_image path_1080p w') = Some true /\
  option_map stamps_last (saved_image path_720p w') = Some true /\
  option_map stamps_last (saved_image path_photo w') = Some true.
Proof.
  intros w'. subst w'.
  destruct (saved_images load_default w) as [H1 [H2 [H3 H4]]].
  unfold saved_image. rewrite H1, H2, H3, H4.
  generalize (try_load_default load_default). intros fnt.
  split; [vm_compute; reflexivity|].
  split; [vm_compute; reflexivity|].
  split; vm_compute; reflexivity.
Qed.

(** ** The frames, one by one *)

Lemma counter_text_of_frame (np_sin : float -> float) (k : Z) :
  counter_text (frame_of np_sin 1280 720 30 300 k)
  = ("Frame " ++ Py.str (k + 1) ++ "/300")%string.
Proof. reflexivity. Qed.

Lemma counter_texts_distinct (k k' : Z) :
  0 <= k < 300 -> 0 <= k' < 300 ->
  ("Frame " ++ Py.str (k + 1) ++ "/300")%string
  = ("Frame " ++ Py.str (k' + 1) ++ "/300")%string ->
  k = k'.
Proof.
  intros Hk Hk' Heq.
  assert (H : forallb
                (fun p =>
                   implb (String.eqb ("Frame " ++ Py.str (fst p + 1) ++ "/300")
                            ("Frame " ++ Py.str (snd p + 1) ++ "/300"))
                     (fst p =? snd p))
                (list_prod (Py.range 300) (Py.range 300)) = true)
    by (vm_compute; reflexivity).
  rewrite forallb_forall in H.
  specialize (H (k, k')). cbn [fst snd] in H.
  rewrite Heq, String.eqb_refl in H. cbn [implb] in H.
  apply Z.eqb_eq. apply H.
  apply in_prod; apply In_range; assumption.
Qed.

(** X9: the 300 frames handed to the writer are pairwise different, even
    where the colour field repeats: each carries its own counter label. *)
Theorem frames_pairwise_distinct (np_sin : float -> float)
  (np_sin_ok : forall a : float, channel_ok (np_sin a) = true)
  (w : world) (i j : Z) :
  0 <= i -> i < j -> j < 300 ->
  exists out fi fj,
    lookup path_video (files (snd (create_sample_video np_sin (Ok tt) w)))
    = Some (VideoFile out) /\
    NoDup (Cv2.written out) /\
    nth_error (Cv2.written out) (Z.to_nat i) = Some fi /\
    nth_error (Cv2.written out) (Z.to_nat j) = Some fj /\
    counter_text fi <> counter_text fj /\
    fi <> fj.
Proof.
  intros Hi Hij Hj.
  exists (sample_video np_sin).
  exists (frame_of np_sin 1280 720 30 300 i), (frame_of np_sin 1280 720 30 300 j).
  split; [apply (saved_video np_sin np_sin_ok w)|].
  assert (Hne : counter_text (frame_of np_sin 1280 720 30 300 i)
                <> counter_text (frame_of np_sin 1280 720 30 300 j)).
  { rewrite !counter_text_of_frame. intros Heq.
    apply counter_texts_distinct in Heq; lia. }
  split.
  { unfold sample_video, Cv2.written.
    apply Finite.Injective_map_NoDup_in; [| apply NoDup_range].
    intros k k' Hk Hk' Heq.
    apply In_range in Hk, Hk'.
    apply (f_equal counter_text) in Heq.
    rewrite !counter_text_of_frame in Heq.
    apply counter_texts_distinct; assumption. }
  split; [apply nth_frame; lia|].
  split; [apply nth_frame; lia|].
  split; [exact Hne|].
  intros Heq. apply Hne. rewrite Heq. reflexivity.
Qed.

Lemma frames_pairwise_distinct_witness :
  exists out fi fj,
    lookup path_video
      (files (snd (create_sample_video (fun _ => 0%float) (Ok tt)
                     (mkWorld [] [] []))))
    = Some (VideoFile out) /\
    NoDup (Cv2.written out) /\
    nth_error (Cv2.written out) (Z.to_nat 0) = Some fi /\
    nth_error (Cv2.written out) (Z.to_nat 60) = Some fj /\
    counter_text fi <> counter_text fj /\
    fi <> fj.
Proof.
  apply (frames_pairwise_distinct (fun _ => 0%float) zero_sine_ok
           (mkWorld [] [] []) 0 60); lia.
Defined.

(** X10: within the square of the first 720 columns, every frame's field is
    its own transpose with red and green exchanged: the pixel of row x,
    column y holds the blue of the pixel of row y, column x, its red as
    green and its green as red. *)
Theorem field_transpose (np_sin : float -> float)
  (np_sin_ok : forall a : float, channel_ok (np_sin a) = true)
  (w : world) (x y k : Z) :
  0 <= x < 720 -> 0 <= y < 720 -> 0 <= k < 300 ->
  exists out frame b g r,
    lookup path_video (files (snd (create_sample_video np_sin (Ok tt) w)))
    = Some (VideoFile out) /\
    nth_error (Cv2.written out) (Z.to_nat k) = Some frame /\
    Np.getitem (Cv2.pixels frame) y x = Some (b, g, r) /\
    Np.getitem (Cv2.pixels frame) x y = Some (b, r, g).
Proof.
  intros Hx Hy Hk.
  exists (sample_video np_sin), (frame_of np_sin 1280 720 30 300 k).
  exists (blue np_sin k x y), (green np_sin k y), (red np_sin k x).
  split; [apply (saved_video np_sin np_sin_ok w)|].
  split; [apply nth_frame; exact Hk|].
  split; [apply getitem_field_array; lia|].
  unfold frame_of, Cv2.pixels.
  rewrite getitem_field_array by lia.
  unfold field_pixel, blue, green, red.
  rewrite (Z.add_comm y x). reflexivity.
Qed.

Lemma field_transpose_witness :
  exists out frame b g r,
    lookup path_video
      (files (snd (create_sample_video (fun _ => 0%float) (Ok tt)
                     (mkWorld [] [] []))))
    = Some (VideoFile out) /\
    nth_error (Cv2.written out) (Z.to_nat 7) = Some frame /\
    Np.getitem (Cv2.pixels frame) 719 3 = Some (b, g, r) /\
    Np.getitem (Cv2.pixels frame) 3 719 = Some (b, r, g).
Proof.
  apply (field_transpose (fun _ => 0%float) zero_sine_ok
           (mkWorld [] [] []) 3 719 7); lia.
Defined.

(** ** What [create_sample_video] touches *)

(** X11: when it runs to the end, [create_sample_video] writes its one
    file and prints its one line; every other file stays as it was, and it
    makes no directory, not even the one it writes into. *)
Theorem video_touches_only_its_file (np_sin : float -> float)
  (np_sin_ok : forall a : float, channel_ok (np_sin a) = true)
  (w : world) (p : string) :
  p <> path_video ->
  lookup p (files (snd (create_sample_video np_sin (Ok tt) w)))
  = lookup p (files w) /\
  dirs (snd (create_sample_video np_sin (Ok tt) w)) = dirs w /\
  stdout (snd (create_sample_video np_sin (Ok tt) w))
  = stdout w ++ ["Created sample_video.mp4 (1280x720, 10s)"%string].
Proof.
  intros Hp. rewrite (create_sample_video_run np_sin np_sin_ok w).
  cbn [snd files dirs stdout lookup].
  apply String.eqb_neq in Hp. rewrite Hp.
  split; [reflexivity|]. split; reflexivity.
Qed.

Lemma video_touches_only_its_file_witness :
  lookup path_4k
    (files (snd (create_sample_video (fun _ => 0%float) (Ok tt)
                   (mkWorld [] [] []))))
  = lookup path_4k (files (mkWorld [] [] [])) /\
  dirs (snd (create_sample_video (fun _ => 0%float) (Ok tt) (mkWorld [] [] [])))
  = dirs (mkWorld [] [] []) /\
  stdout (snd (create_sample_video (fun _ => 0%float) (Ok tt)
                 (mkWorld [] [] [])))
  = stdout (mkWorld [] [] [])
    ++ ["Created sample_video.mp4 (1280x720, 10s)"%string].
Proof.
  apply (video_touches_only_its_file (fun _ => 0%float) zero_sine_ok
           (mkWorld [] [] []) path_4k).
  intros H. vm_compute in H. discriminate H.
Defined.

(** ** Exceptions that are not caught *)

Lemma video_import_raises (np_sin : float -> float) (e : exn) (w : world) :
  e <> ImportError ->
  create_sample_video np_sin (Raise e) w = (Raise e, w).
Proof.
  intros He. unfold create_sample_video, try_except, bind, lift.
  destruct e; try reflexivity. contradiction He. reflexivity.
Qed.

(** X12: the handler of [create_sample_video] catches [ImportError] and
    nothing else.  If [import cv2] raises anything else, the function raises
    it, untouched and with no notice printed; the script then stops after the
    four images are saved, and its two closing lines are never printed. *)
Theorem other_import_failures_propagate (np_sin : float -> float)
  (load_default : result font) (e : exn) (w : world) :
  e <> ImportError ->
  create_sample_video np_sin (Raise e) w = (Raise e, w) /\
  fst (main np_sin load_default (Raise e) w) = Raise e /\
  stdout (snd (main np_sin load_default (Raise e) w))
  = stdout w ++ line_start :: lines_images /\
  files (snd (main np_sin load_default (Raise e) w))
  = image_files (try_load_default load_default) ++ files w.
Proof.
  intros He. split; [apply video_import_raises; exact He|].
  unfold main, bind, print.
  rewrite create_sample_images_run.
  rewrite (video_import_raises np_sin e _ He).
  cbn [fst snd stdout files].
  split; [reflexivity|].
  split; [| reflexivity].
  rewrite <- !app_assoc. reflexivity.
Qed.

Lemma other_import_failures_propagate_witness :
  create_sample_video (fun _ => 0%float) (Raise OSError) (mkWorld [] [] [])
  = (Raise OSError, mkWorld [] [] []) /\
  fst (main (fun _ => 0%float) (Ok default_font) (Raise OSError)
         (mkWorld [] [] [])) = Raise OSError /\
  stdout (snd (main (fun _ => 0%float) (Ok default_font) (Raise OSError)
                 (mkWorld [] [] [])))
  = stdout (mkWorld [] [] []) ++ line_start :: lines_images /\
  files (snd (main (fun _ => 0%float) (Ok default_font) (Raise OSError)
                (mkWorld [] [] [])))
  = image_files (try_load_default (Ok default_font)) ++ files (mkWorld [] [] []).
Proof.
  apply (other_import_failures_propagate (fun _ => 0%float) (Ok default_font)
           OSError (mkWorld [] [] [])).
  discriminate.
Defined.

Lemma int_never_ImportError (f : float) (e : exn) :
  Py.int f = Raise e -> is_ImportError e = false.
Proof.
  unfold Py.int. destruct (Prim2SF f); intros H;
    try discriminate H; injection H as <-; reflexivity.
Qed.

Lemma video_field_never_ImportError (np_sin : float -> float)
  (k x y : Z) (e : exn) :
  video_field np_sin k x y = Raise e -> is_ImportError e = false.
Proof.
  unfold video_field.
  destruct (Py.int _) as [r | er] eqn:Hr; cbn [bindR].
  - destruct (Py.int _) as [g | eg] eqn:Hg in |- *; cbn [bindR].
    + destruct (Py.int _) as [b | eb] eqn:Hb in |- *; cbn [bindR].
      * discriminate.
      * intros H. injection H as <-. exact (int_never_ImportError _ _ Hb).
    + intros H. injection H as <-. exact (int_never_ImportError _ _ Hg).
  - intros H. injection H as <-. exact (int_never_ImportError _ _ Hr).
Qed.

Lemma fill_frame_raises (np_sin : float -> float)
  (width height k : Z) (e : exn) :
  0 < width -> 0 < height ->
  video_field np_sin k 0 0 = Raise e ->
  fill_frame np_sin width height k = Raise e.
Proof.
  intros Hw Hh Hfield. unfold fill_frame, Np.zeros.
  replace ((height <? 0) || (width <? 0)) with false
    by (symmetry; apply orb_false_intro; apply Z.ltb_ge; lia).
  cbn [bindR].
  destruct (range_head height Hh) as [ly ->].
  destruct (range_head width Hw) as [lx ->].
  cbn [Py.for_each]. rewrite Hfield. reflexivity.
Qed.

Lemma synth_frame_raises (np_sin : float -> float)
  (width height fps total_frames k : Z) (e : exn) :
  0 < width -> 0 < height ->
  video_field np_sin k 0 0 = Raise e ->
  synth_frame np_sin width height fps total_frames k = Raise e.
Proof.
  intros Hw Hh Hfield. unfold synth_frame.
  rewrite (fill_frame_raises np_sin width height k e Hw Hh Hfield).
  reflexivity.
Qed.

Lemma video_run_raises (np_sin : float -> float) (e : exn) (w : world) :
  video_field np_sin 0 0 0 = Raise e ->
  create_sample_video np_sin (Ok tt) w = (Raise e, w).
Proof.
  intros Hfield.
  pose proof (video_field_never_ImportError np_sin 0 0 0 e Hfield) as Hnot.
  unfold create_sample_video, try_except, bind, lift.
  cbv beta iota zeta.
  change (30 * 10) with 300.
  destruct (range_head 300 ltac:(lia)) as [l ->].
  cbn [Py.for_each].
  rewrite (synth_frame_raises np_sin 1280 720 30 300 0 e
             ltac:(lia) ltac:(lia) Hfield).
  cbn [bindR]. rewrite Hnot. reflexivity.
Qed.

(** X13: an exception raised while the field of the first frame is computed
    (a sine that is not a number makes [int] raise [ValueError]) is not an
    [ImportError], so the handler lets it through: [create_sample_video]
    raises it, and prints neither its progress line nor the notice. *)
Theorem field_failure_propagates (np_sin : float -> float) (e : exn)
  (w : world) :
  video_field np_sin 0 0 0 = Raise e ->
  e <> ImportError /\
  fst (create_sample_video np_sin (Ok tt) w) = Raise e /\
  stdout (snd (create_sample_video np_sin (Ok tt) w)) = stdout w.
Proof.
  intros Hfield.
  pose proof (video_field_never_ImportError np_sin 0 0 0 e Hfield) as Hnot.
  split; [intros ->; discriminate Hnot|].
  rewrite (video_run_raises np_sin e w Hfield).
  split; reflexivity.
Qed.

Lemma field_failure_propagates_witness :
  ValueError <> ImportError /\
  fst (create_sample_video (fun _ => PrimFloat.nan) (Ok tt) (mkWorld [] [] []))
  = Raise ValueError /\
  stdout (snd (create_sample_video (fun _ => PrimFloat.nan) (Ok tt)
                 (mkWorld [] [] [])))
  = stdout (mkWorld [] [] []).
Proof.
  apply (field_failure_propagates (fun _ => PrimFloat.nan) ValueError
           (mkWorld [] [] [])).
  vm_compute. reflexivity.
Defined.

(** ** The whole script *)

(** X14: with the video collaborator present the script ends normally,
    having printed its eight lines in order (the opening line, one line per
    image, the video line, the two closing lines) and written its five
    files: the video, newest, then the four images, over whatever was
    there. *)
Theorem main_full_run (np_sin : float -> float)
  (np_sin_ok : forall a : float, channel_ok (np_sin a) = true)
  (load_default : result font) (w : world) :
  fst (main np_sin load_default (Ok tt) w) = Ok tt /\
  stdout (snd (main np_sin load_default (Ok tt) w))
  = stdout w ++ line_start :: lines_images ++ line_video :: lines_end /\
  files (snd (main np_sin load_default (Ok tt) w))
  = (path_video, VideoFile (sample_video np_sin))
    :: image_files (try_load_default load_default) ++ files w.
Proof.
  unfold main, bind, print.
  rewrite create_sample_images_run.
  rewrite (create_sample_video_run np_sin np_sin_ok).
  cbn [fst snd stdout files dirs].
  split; [reflexivity|].
  split; [| reflexivity].
  rewrite <- !app_assoc. reflexivity.
Qed.

Lemma main_full_run_witness :
  fst (main (fun _ => 0%float) (Ok default_font) (Ok tt) (mkWorld [] [] []))
  = Ok tt /\
  stdout (snd (main (fun _ => 0%float) (Ok default_font) (Ok tt)
                 (mkWorld [] [] [])))
  = stdout (mkWorld [] [] [])
    ++ line_start :: lines_images ++ line_video :: lines_end /\
  files (snd (main (fun _ => 0%float) (Ok default_font) (Ok tt)
                (mkWorld [] [] [])))
  = (path_video, VideoFile (sample_video (fun _ => 0%float)))
    :: image_files (try_load_default (Ok default_font))
       ++ files (mkWorld [] [] []).
Proof.
  apply (main_full_run (fun _ => 0%float) zero_sine_ok (Ok default_font)
           (mkWorld [] [] [])).
Defined.

(** X15: without the video collaborator the script prints its opening line,
    the four image lines, the two lines of the notice and then the same two
    closing lines as after a full run: it announces the sample files as
    created although no video was made. *)
Theorem main_skip_output (np_sin : float -> float)
  (load_default : result font) (w : world) :
  stdout (snd (main np_sin load_default (Raise ImportError) w))
  = stdout w ++ line_start :: lines_images ++ lines_skip ++ lines_end /\
  lookup path_video (files (snd (main np_sin load_default (Raise ImportError) w)))
  = lookup path_video (files w).
Proof.
  unfold main, bind, print.
  rewrite create_sample_images_run.
  cbn [fst snd stdout files dirs].
  split; [| reflexivity].
  unfold create_sample_video, try_except, bind, lift, print.
  cbn [fst snd stdout files dirs is_ImportError].
  rewrite <- !app_assoc. reflexivity.
Qed.

(** ** The size of the frames *)

(** X16: every frame handed to the writer has the size the writer was
    opened with: the writer is given (width, height) = (1280, 720) and each
    array has 720 rows of 1280 pixels. *)
Theorem frames_match_writer_size (np_sin : float -> float)
  (np_sin_ok : forall a : float, channel_ok (np_sin a) = true)
  (w : world) (k : Z) :
  0 <= k < 300 ->
  exists out frame,
    lookup path_video (files (snd (create_sample_video np_sin (Ok tt) w)))
    = Some (VideoFile out) /\
    Cv2.frameSize out = (1280, 720) /\
    nth_error (Cv2.written out) (Z.to_nat k) = Some frame /\
    Z.of_nat (List.length (Cv2.pixels frame)) = snd (Cv2.frameSize out) /\
    Forall (fun row => Z.of_nat (List.length row) = fst (Cv2.frameSize out))
      (Cv2.pixels frame).
Proof.
  intros Hk.
  exists (sample_video np_sin), (frame_of np_sin 1280 720 30 300 k).
  split; [apply (saved_video np_sin np_sin_ok w)|].
  split; [reflexivity|].
  split; [apply nth_frame; exact Hk|].
  destruct (length_field_array np_sin 1280 720 k) as [Hrows Hcols].
  unfold frame_of, Cv2.pixels, sample_video, Cv2.frameSize. cbn [fst snd].
  split.
  - rewrite Hrows. reflexivity.
  - apply Forall_forall. intros row Hin.
    rewrite Forall_forall in Hcols. rewrite (Hcols row Hin). reflexivity.
Qed.

Lemma frames_match_writer_size_witness :
  exists out frame,
    lookup path_video
      (files (snd (create_sample_video (fun _ => 0%float) (Ok tt)
                     (mkWorld [] [] []))))
    = Some (VideoFile out) /\
    Cv2.frameSize out = (1280, 720) /\
    nth_error (Cv2.written out) (Z.to_nat 299) = Some frame /\
    Z.of_nat (List.length (Cv2.pixels frame)) = snd (Cv2.frameSize out) /\
    Forall (fun row => Z.of_nat (List.length row) = fst (Cv2.frameSize out))
      (Cv2.pixels frame).
Proof.
  apply (frames_match_writer_size (fun _ => 0%float) zero_sine_ok
           (mkWorld [] [] []) 299); lia.
Defined.
